(** * node-scrypt: the boiler-plate layer of [src/node-boilerplate/common.cc]

    A shallow embedding of namespace [Internal] of [common.cc] and the
    properties its specification states about it.

    - [ScryptErrorDescr], the two [MakeErrorObject] overloads,
      [CheckScryptParameters], [ScryptParams::operator=], [CreateBuffer] and
      [ProduceBuffer] are translated statement by statement.
    - V8 and node are the host: their values are the inductive [Value], their
      services ([String::New], [Value::ToNumber], [node::DecodeBytes],
      [node::DecodeWrite]) the fields of the class [Host].
    - [common.h] is not among the sources: its five error-code constants are
      the fields of the class [Header].
    - A call ends as an [outcome]: it returns, or it stops in a failed
      [assert], or the process dies where [node::Buffer::HasInstance] is
      handed the empty handle that [ToObject] yields for undefined and
      null. *)

From Stdlib Require Import ZArith Lia.
From stdpp Require Import gmap strings list.

Local Open Scope string_scope.
Local Open Scope Z_scope.

(** ** The host: V8 values and the native heap *)

(** A JavaScript string is a sequence of 16-bit code units. *)
Abbreviation jsstring := (list Z) (only parsing).

(** An IEEE double: not-a-number, an infinity, or the finite value
    [m * 2^e]. *)
Inductive Double : Type :=
| NaN
| Infinity (negative : bool)
| Finite (m e : Z).

(** [enum encoding] of [node.h]. *)
Inductive encoding : Type := ASCII | UTF8 | BASE64 | UCS2 | BINARY | HEX | BUFFER.

Definition encoding_eqb (a b : encoding) : bool :=
  match a, b with
  | ASCII, ASCII | UTF8, UTF8 | BASE64, BASE64 | UCS2, UCS2
  | BINARY, BINARY | HEX, HEX | BUFFER, BUFFER => true
  | _, _ => false
  end.

(** Native memory is a list of regions; an address is an index in it.  A
    byte is [Some b] with [0 <= b < 256], or [None] while it is still
    indeterminate (fresh from [new char[n]]). *)
Abbreviation addr := nat (only parsing).
Abbreviation region := (list (option Z)) (only parsing).
Abbreviation Heap := (list (list (option Z))) (only parsing).

(** Who releases a buffer's memory when the host collects it: node itself,
    or [FreeCallback], registered by [CreateBuffer] on memory that
    [common.cc] allocated. *)
Inductive release : Type := ByNode | ByFreeCallback.

(** A node [Buffer] object: a view of [buf_length] bytes at [buf_offset] in
    the region [buf_data]. *)
Record Buffer : Type := mkBuffer {
  buf_data : addr;
  buf_length : Z;
  buf_offset : Z;
  buf_release : release
}.

(** [v8::Value], as far as [common.cc] looks at it. *)
#[warnings="-register-all"]
Inductive Value : Type :=
| VUndefined
| VNull
| VBoolean (b : bool)
| VNumber (d : Double)
| VString (s : jsstring)
| VStringObject (s : jsstring)
| VBuffer (b : Buffer)
| VObject (props : gmap string Value).

(** [Integer::New(i)]. *)
Definition Integer_New (i : Z) : Value := VNumber (Finite i 0).

Definition IsNumber (v : Value) : bool :=
  match v with VNumber _ => true | _ => false end.

Definition IsString (v : Value) : bool :=
  match v with VString _ => true | _ => false end.

Definition IsStringObject (v : Value) : bool :=
  match v with VStringObject _ => true | _ => false end.

(** [node::Buffer::HasInstance(obj)] on an object: whether it is a buffer. *)
Definition Buffer_HasInstance (v : Value) : bool :=
  match v with VBuffer _ => true | _ => false end.

(** [node::Buffer::Length(v)]; [common.cc] calls it on buffers only. *)
Definition Buffer_Length (v : Value) : Z :=
  match v with VBuffer b => buf_length b | _ => 0 end.

(** [obj->Has(String::New(k))] and [obj->Get(String::New(k))]. *)
Definition Has (obj : gmap string Value) (k : string) : bool :=
  bool_decide (is_Some (obj !! k)).

Definition Get (obj : gmap string Value) (k : string) : Value :=
  default VUndefined (obj !! k).

(** The services of V8 and node that [common.cc] calls and whose code is
    the host's. *)
Class Host : Type := {
  (** [String::New(const char* )] *)
  String_New : string -> jsstring;
  (** [v->ToNumber()->Value()] on a value that is not a number *)
  host_ToNumber : Value -> Double;
  (** [node::DecodeBytes(val, encoding)], an [ssize_t] *)
  host_DecodeBytes : Value -> encoding -> Z;
  (** [node::DecodeWrite(buf, buflen, val, encoding)]: the region after the
      write and the [ssize_t] returned *)
  host_DecodeWrite : region -> Z -> Value -> encoding -> region * Z
}.

(** How the translation unit is built: with or without [NDEBUG], and the
    width of [size_t]. *)
Class Build : Type := {
  NDEBUG : bool;
  size_t_bits : Z
}.

(** The error codes of [common.h]. *)
Class Header : Type := {
  ADDONARG : Z;
  JSARG : Z;
  PARMOBJ : Z;
  CONFIG : Z;
  SCRYPT : Z
}.

(** A call either returns, or stops the process in a failed [assert], or
    takes the process down by using an empty handle. *)
Inductive outcome (A : Type) : Type :=
| Returned (a : A)
| AssertionFailed
| Crashed.
Arguments Returned {A} a.
Arguments AssertionFailed {A}.
Arguments Crashed {A}.

(** Sequencing: what follows a call is reached only if the call returns. *)
#[global] Instance outcome_bind : MBind outcome := fun A B k c =>
  match c with
  | Returned a => k a
  | AssertionFailed => AssertionFailed
  | Crashed => Crashed
  end.

(** [a && c] of C++: [c] is evaluated only if [a] holds. *)
Definition and_then (a : bool) (c : outcome bool) : outcome bool :=
  if a then c else Returned false.

(** [v->ToObject()].  Undefined and null have no object: V8 throws and
    hands back the empty handle, [None].  Any other value has one; a
    primitive gets its wrapper, which for a string is a string object. *)
Definition ToObject (v : Value) : option Value :=
  match v with
  | VUndefined | VNull => None
  | VString s => Some (VStringObject s)
  | _ => Some v
  end.

(** [node::Buffer::HasInstance(v->ToObject())]: [HasInstance] looks into the
    handle it is given, and the process dies on the empty one. *)
Definition HasInstance_ToObject (v : Value) : outcome bool :=
  match ToObject v with
  | Some obj => Returned (Buffer_HasInstance obj)
  | None => Crashed
  end.

(** [assert(c); k]: compiled out under [NDEBUG]. *)
Definition assert {build : Build} {A : Type} (c : bool) (k : outcome A) : outcome A :=
  if NDEBUG || c then k else AssertionFailed.

(** Conversion of an integer to [size_t]. *)
Definition to_size_t {build : Build} (z : Z) : Z := z mod 2 ^ size_t_bits.

Module Internal.

(** ** [ScryptErrorDescr] (lines 44-77) *)

Definition ScryptErrorDescr (error : Z) : string :=
  match error with
  | 0 => "success"
  | 1 => "getrlimit or sysctl(hw.usermem) failed"
  | 2 => "clock_getres or clock_gettime failed"
  | 3 => "error computing derived key"
  | 4 => "could not read salt from /dev/urandom"
  | 5 => "error in OpenSSL"
  | 6 => "malloc failed"
  | 7 => "data is not a valid scrypt-encrypted block"
  | 8 => "unrecognized scrypt format"
  | 9 => "decrypting file would take too much memory"
  | 10 => "decrypting file would take too long"
  | 11 => "password is incorrect"
  | 12 => "error writing output file"
  | 13 => "error reading input file"
  | _ => "error unkown"
  end.

Section ErrorObjects.
Context {host : Host} {build : Build} {header : Header}.

(** ** [MakeErrorObject(int, std::string&)] (lines 144-177)

    [errorMessage] is a reference to the caller's string: the function
    returns the JSON object together with the caller's string as it leaves
    it. *)

Definition unknown_internal_error : string :=
  "Unknown internal error - please report this error to make this module better. Details about error reporting can be found at the GitHub repo: https://github.com/barrysteyn/node-scrypt#report-errors".

Definition MakeErrorObject (errorCode : Z) (errorMessage : string)
  : Value * string :=
  if negb (errorCode =? 0) then
    let '(errorCode, errorMessage) :=
      if errorCode =? ADDONARG then
        (errorCode, "Module addon argument error: " +:+ errorMessage)
      else if errorCode =? JSARG then
        (errorCode, "JavaScript wrapper argument error: " +:+ errorMessage)
      else if errorCode =? PARMOBJ then
        (errorCode, "Scrypt parameter object error: " +:+ errorMessage)
      else if errorCode =? CONFIG then
        (errorCode, "Scrypt config object error: " +:+ errorMessage)
      else
        (500, unknown_internal_error) in
    let errorObject : gmap string Value := ∅ in
    let errorObject := <["err_code" := Integer_New errorCode]> errorObject in
    let errorObject :=
      <["err_message" := VString (String_New errorMessage)]> errorObject in
    (VObject errorObject, errorMessage)
  else
    (VNull, errorMessage).

(** ** [MakeErrorObject(int, int)] (lines 182-195) *)

Definition MakeErrorObject_scrypt (errorCode scryptErrorCode : Z)
  : outcome Value :=
  assert (errorCode =? SCRYPT)
    (if negb (scryptErrorCode =? 0) then
       let errorObject : gmap string Value := ∅ in
       let errorObject := <["err_code" := Integer_New errorCode]> errorObject in
       let errorObject :=
         <["err_message" := VString (String_New "Scrypt error")]> errorObject in
       let errorObject :=
         <["scrypt_err_code" := Integer_New scryptErrorCode]> errorObject in
       let errorObject :=
         <["scrypt_err_message" :=
             VString (String_New (ScryptErrorDescr scryptErrorCode))]>
           errorObject in
       Returned (VObject errorObject)
     else
       Returned VNull).

End ErrorObjects.

(** ** [CheckScryptParameters] (lines 94-130)

    [errMessage] is a reference to the caller's string. *)

Section Parameters.
Context {host : Host} {header : Header}.

Definition CheckScryptParameters (obj : gmap string Value) (errMessage : string)
  : Z * string :=
  if negb (Has obj "N") then (PARMOBJ, "N value is not present")
  else if negb (Has obj "r") then (PARMOBJ, "r value is not present")
  else if negb (Has obj "p") then (PARMOBJ, "p value is not present")
  else
    let val := Get obj "N" in
    if negb (IsNumber val) then (PARMOBJ, "N must be a numeric value")
    else
      let val := Get obj "r" in
      if negb (IsNumber val) then (PARMOBJ, "r must be a numeric value")
      else
        let val := Get obj "p" in
        if negb (IsNumber val) then (PARMOBJ, "p must be a numeric value")
        else (0, errMessage).

(** ** [ScryptParams::operator=] (lines 135-139) *)

(** Modelled from the spec: [struct ScryptParams] is declared in [common.h],
    which is not among the sources.  The spec's CostParameters gives its
    fields: N unsigned 64-bit, r and p unsigned 32-bit. *)
Record ScryptParams : Type := mkScryptParams {
  params_N : Z;
  params_r : Z;
  params_p : Z
}.

Definition N_bits : Z := 64.
Definition r_bits : Z := 32.
Definition p_bits : Z := 32.

(** [v->ToNumber()->Value()]: a number is its own value. *)
Definition ToNumber (v : Value) : Double :=
  match v with
  | VNumber d => d
  | _ => host_ToNumber v
  end.

(** The fractional part of a double discarded (rounding toward zero). *)
Definition truncate (d : Double) : option Z :=
  match d with
  | Finite m e => Some (if 0 <=? e then m * 2 ^ e else m `quot` 2 ^ (- e))
  | _ => None
  end.

(** The implicit conversion of a [double] to an unsigned integer of [w] bits:
    the value truncated; [None] where C++ leaves the behaviour undefined (the
    truncated value is not one of the type). *)
Definition double_to_unsigned (w : Z) (d : Double) : option Z :=
  t ← truncate d;
  if (0 <=? t) && (t <? 2 ^ w) then Some t else None.

Definition ScryptParams_assign (rhs : gmap string Value) : option ScryptParams :=
  n ← double_to_unsigned N_bits (ToNumber (Get rhs "N"));
  r ← double_to_unsigned r_bits (ToNumber (Get rhs "r"));
  p ← double_to_unsigned p_bits (ToNumber (Get rhs "p"));
  Some (mkScryptParams n r p).

End Parameters.

(** ** [CreateBuffer(buffer, data, dataLength)] (lines 216-227)

    The buffer handed back through [buffer]: [dataLength] bytes at offset
    zero of the memory at [data], released by [FreeCallback]. *)

Definition CreateBuffer (data : addr) (dataLength : Z) : Value :=
  VBuffer (mkBuffer data dataLength 0 ByFreeCallback).

(** ** [ProduceBuffer] (lines 232-276) *)

(** What a call leaves behind: the [int] returned, the native heap, and the
    caller's [argument] and [errorMessage], both passed by reference. *)
Record produced : Type := mkProduced {
  pb_return : Z;
  pb_heap : Heap;
  pb_argument : Value;
  pb_errorMessage : string
}.

Section Buffers.
Context {host : Host} {build : Build}.

(** [new char[n]]: a fresh region of [n] indeterminate bytes, at the next
    address (the allocation is taken to succeed). *)
Definition new_char (heap : Heap) (n : Z) : Heap * addr :=
  ((heap ++ [replicate (Z.to_nat n) None])%list, List.length heap).

(** [node::DecodeWrite(data, buflen, val, encoding)] on the heap. *)
Definition DecodeWrite (heap : Heap) (data : addr) (buflen : Z)
    (val : Value) (enc : encoding) : Heap * Z :=
  let '(written, n) :=
    host_DecodeWrite (default [] (heap !! data)) buflen val enc in
  (<[data := written]> heap, n).

(** Lines 270-275, where the string path and the buffer path meet. *)
Definition check_empty (argName errorMessage : string) (checkEmpty : bool)
    (heap : Heap) (argument : Value) : outcome produced :=
  if checkEmpty && (Buffer_Length argument =? 0) then
    Returned (mkProduced 1 heap argument (argName +:+ " cannot be empty"))
  else
    Returned (mkProduced 0 heap argument errorMessage).

Definition ProduceBuffer (heap : Heap) (argument : Value)
    (argName errorMessage : string) (encoding : encoding) (checkEmpty : bool)
  : outcome produced :=
  let check_empty := check_empty argName errorMessage checkEmpty in
  let not_a_buffer :=
    is_buffer ← HasInstance_ToObject argument; Returned (negb is_buffer) in
  raw_buffer ← and_then (encoding_eqb encoding BUFFER)
                 (HasInstance_ToObject argument);
  if raw_buffer : bool then
    Returned (mkProduced 0 heap argument errorMessage)
  else
  no_string_no_buffer ←
    and_then (negb (IsString argument) && negb (IsStringObject argument))
      not_a_buffer;
  if no_string_no_buffer : bool then
    Returned (mkProduced 1 heap argument
                (argName +:+ " must be a buffer or string"))
  else
  raw_no_buffer ← and_then (encoding_eqb encoding BUFFER) not_a_buffer;
  if raw_no_buffer : bool then
    Returned (mkProduced 1 heap argument
                (argName +:+ " must be a buffer as specified by config"))
  else if IsString argument || IsStringObject argument then
    let dataLength := to_size_t (host_DecodeBytes argument encoding) in
    let '(heap, data) := new_char heap dataLength in
    let buffer := CreateBuffer data dataLength in
    let '(heap, n) := DecodeWrite heap data dataLength argument encoding in
    let dataWritten := to_size_t n in
    assert (dataWritten =? dataLength)
      (if negb (dataWritten =? dataLength) then
         Returned (mkProduced 1 heap argument
           (argName +:+ " is probably encoded differently to what was specified"))
       else
         check_empty heap buffer)
  else
    check_empty heap argument.

End Buffers.

End Internal.

Import Internal.

(** ** The specification's tables *)

(** Spec, section 4.2: the native status code table, codes 0 to 13. *)
Definition spec_status_table : list string :=
  [ "success";
    "getrlimit or sysctl(hw.usermem) failed";
    "clock_getres or clock_gettime failed";
    "error computing derived key";
    "could not read salt from /dev/urandom";
    "error in OpenSSL";
    "malloc failed";
    "data is not a valid scrypt-encrypted block";
    "unrecognized scrypt format";
    "decrypting file would take too much memory";
    "decrypting file would take too long";
    "password is incorrect";
    "error writing output file";
    "error reading input file" ].

(** Spec, section 4.2: the label the general form puts before the message,
    for the four categories that have one. *)
Definition spec_category_label {header : Header} (category : Z) : option string :=
  if category =? ADDONARG then Some "Module addon argument error: "
  else if category =? JSARG then Some "JavaScript wrapper argument error: "
  else if category =? PARMOBJ then Some "Scrypt parameter object error: "
  else if category =? CONFIG then Some "Scrypt config object error: "
  else None.

(** Spec, section 4.1: the checks of the validator, in their order. *)
Inductive check : Type :=
| Present (field : string)
| Numeric (field : string).

Definition spec_checks : list check :=
  [Present "N"; Present "r"; Present "p"; Numeric "N"; Numeric "r"; Numeric "p"].

Definition check_holds (obj : gmap string Value) (c : check) : bool :=
  match c with
  | Present field => Has obj field
  | Numeric field => IsNumber (Get obj field)
  end.

Definition check_message (c : check) : string :=
  match c with
  | Present field => field +:+ " value is not present"
  | Numeric field => field +:+ " must be a numeric value"
  end.

Definition first_violation (obj : gmap string Value) : option check :=
  List.find (fun c => negb (check_holds obj c)) spec_checks.

(** A field of a parameter object is present and numeric. *)
Definition field_ok (obj : gmap string Value) (field : string) : bool :=
  Has obj field && IsNumber (Get obj field).

(** The double [d] is exactly the integer [z]. *)
Definition Double_is (d : Double) (z : Z) : bool :=
  match d with
  | Finite m e => if 0 <=? e then m * 2 ^ e =? z else m =? z * 2 ^ (- e)
  | _ => false
  end.

(** ** Instances to run the functions on *)

(** One assignment of the constants of [common.h]. *)
Definition sample_header : Header :=
  {| ADDONARG := 1; JSARG := 2; PARMOBJ := 3; CONFIG := 4; SCRYPT := 5 |}.

(** A debug build for a 64-bit target. *)
Definition debug_build : Build := {| NDEBUG := false; size_t_bits := 64 |}.

(** The code units of a string. *)
Definition units_of (v : Value) : jsstring :=
  match v with
  | VString s | VStringObject s => s
  | _ => []
  end.

(** Overwrite the start of a region. *)
Definition write_bytes (bytes : list Z) (buf : region) : region :=
  ((Some <$> bytes) ++ drop (List.length bytes) buf)%list.

(** A host whose text encodings all work as node's BINARY does: one byte for
    each code unit, its low eight bits.  [String::New] is given for ASCII
    text, [ToNumber] for [undefined]. *)
Definition binary_host : Host :=
  {| String_New := fun c =>
       (fun a => Z.of_N (Ascii.N_of_ascii a)) <$> String.list_ascii_of_string c;
     host_ToNumber := fun _ => NaN;
     host_DecodeBytes := fun val _ => Z.of_nat (List.length (units_of val));
     host_DecodeWrite := fun buf buflen val _ =>
       (write_bytes ((fun u => u mod 256) <$> take (Z.to_nat buflen) (units_of val)) buf,
        buflen) |}.

(** Reading a region back as a BINARY string: each byte is a code unit. *)
Definition binary_decode (buf : region) : jsstring := default 0 <$> buf.

(** The parameter object [{N: 16384, r: 8, p: 1}] of the spec. *)
Definition spec_params : gmap string Value :=
  <["N" := VNumber (Finite 16384 0)]>
    (<["r" := VNumber (Finite 8 0)]> (<["p" := VNumber (Finite 1 0)]> ∅)).

(** The parameter object [{N: 16384, r: 8.5, p: 1}]; 8.5 is [17 * 2^-1]. *)
Definition fractional_params : gmap string Value :=
  <["N" := VNumber (Finite 16384 0)]>
    (<["r" := VNumber (Finite 17 (-1))]> (<["p" := VNumber (Finite 1 0)]> ∅)).

(** The parameter object [{N: 16384, p: "1"}]: r is missing, p is a string. *)
Definition incomplete_params : gmap string Value :=
  <["N" := VNumber (Finite 16384 0)]> (<["p" := VString [49]]> ∅).

(** The parameter object [{N: NaN, r: 8, p: 1}]. *)
Definition nan_params : gmap string Value :=
  <["N" := VNumber NaN]>
    (<["r" := VNumber (Finite 8 0)]> (<["p" := VNumber (Finite 1 0)]> ∅)).

(** A release build for a 64-bit target. *)
Definition release_build : Build := {| NDEBUG := true; size_t_bits := 64 |}.

(** A host that differs from [binary_host] in one thing: [DecodeWrite]
    reports one byte less than it was asked for. *)
Definition short_host : Host :=
  {| String_New := String_New (Host := binary_host);
     host_ToNumber := host_ToNumber (Host := binary_host);
     host_DecodeBytes := host_DecodeBytes (Host := binary_host);
     host_DecodeWrite := fun buf buflen val enc =>
       ((host_DecodeWrite (Host := binary_host) buf buflen val enc).1,
        buflen - 1) |}.

(** A double that the conversion to an unsigned integer of [w] bits is not
    defined on: not-a-number, an infinity, or an integer outside the type. *)
Definition not_convertible (w : Z) (d : Double) : Prop :=
  d = NaN \/ (exists negative : bool, d = Infinity negative)
  \/ exists z : Z, Double_is d z = true /\ (z < 0 \/ 2 ^ w <= z).

(** Where the text of a status code stands in the spec's table followed by
    the text of the default branch. *)
Definition table_index (error : Z) : nat :=
  if (0 <=? error) && (error <=? 13) then Z.to_nat error else 14%nat.

(** ** The error translator *)

Lemma length_append (s1 s2 : string) :
  String.length (s1 +:+ s2) = (String.length s1 + String.length s2)%nat.
Proof.
  induction s1 as [|a s1 IH]; [reflexivity|].
  change (String a s1 +:+ s2) with (String a (s1 +:+ s2)).
  cbn [String.length]. now rewrite IH.
Qed.

Section ErrorTranslator.
Context {host : Host} {build : Build} {header : Header}.

Lemma assert_holds {A : Type} (c : bool) (k : outcome A) :
  c = true -> assert c k = k.
Proof.
  intros ->. unfold assert. now rewrite orb_true_r.
Qed.

(** Outside 0..13 the [switch] of [ScryptErrorDescr] takes its default. *)
Lemma ScryptErrorDescr_default (error : Z) :
  error < 0 \/ 13 < error -> ScryptErrorDescr error = "error unkown".
Proof.
  intros Hrange. destruct error as [|q|q]; [lia | | reflexivity].
  do 4 (destruct q as [q|q|]; try reflexivity; try lia).
Qed.

(** Inside 0..13 it returns the entry of the spec's table. *)
Lemma ScryptErrorDescr_table (error : Z) :
  0 <= error <= 13 ->
  spec_status_table !! Z.to_nat error = Some (ScryptErrorDescr error).
Proof.
  intros Hrange.
  assert (Hcases : Exists (eq error) [0;1;2;3;4;5;6;7;8;9;10;11;12;13]).
  { rewrite Exists_exists. exists error. split; [|reflexivity].
    assert (Hlist : [0;1;2;3;4;5;6;7;8;9;10;11;12;13]
                    = Z.of_nat <$> seq 0 14) by reflexivity.
    rewrite Hlist. apply list_elem_of_fmap. exists (Z.to_nat error).
    split; [lia|]. apply elem_of_seq. lia. }
  repeat (apply Exists_cons in Hcases as [->|Hcases]; [reflexivity|]).
  now apply Exists_nil in Hcases.
Qed.

(** What the native-code form builds for a non-zero status code. *)
Lemma MakeErrorObject_scrypt_nonzero (scryptErrorCode : Z) :
  scryptErrorCode <> 0 ->
  exists obj : gmap string Value,
    MakeErrorObject_scrypt SCRYPT scryptErrorCode = Returned (VObject obj)
    /\ obj !! "err_code" = Some (Integer_New SCRYPT)
    /\ obj !! "err_message" = Some (VString (String_New "Scrypt error"))
    /\ obj !! "scrypt_err_code" = Some (Integer_New scryptErrorCode)
    /\ obj !! "scrypt_err_message"
       = Some (VString (String_New (ScryptErrorDescr scryptErrorCode))).
Proof.
  intros Hcode. unfold MakeErrorObject_scrypt.
  rewrite assert_holds by apply Z.eqb_refl.
  apply Z.eqb_neq in Hcode. rewrite Hcode. cbn [negb].
  eexists. split; [reflexivity|].
  repeat split; simplify_map_eq; reflexivity.
Qed.

(** What the general form does, case by case: nothing for code zero;
    otherwise the caller's message becomes the labelled message, or the fixed
    text for a code without a label, and the object reports that same text. *)
Lemma MakeErrorObject_cases (errorCode : Z) (errorMessage : string) :
  (errorCode = 0 /\ MakeErrorObject errorCode errorMessage = (VNull, errorMessage))
  \/ (errorCode <> 0 /\
      exists (code : Z) (text : string),
        MakeErrorObject errorCode errorMessage
        = (VObject (<["err_message" := VString (String_New text)]>
                      (<["err_code" := Integer_New code]> ∅)), text)
        /\ match spec_category_label errorCode with
           | Some label => code = errorCode /\ text = label +:+ errorMessage
           | None => code = 500 /\ text = unknown_internal_error
           end).
Proof.
  unfold MakeErrorObject, spec_category_label.
  destruct (Z.eqb_spec errorCode 0) as [->|Hcode]; [left; split; reflexivity|].
  right. split; [assumption|]. cbn [negb].
  destruct (errorCode =? ADDONARG); [|destruct (errorCode =? JSARG);
    [|destruct (errorCode =? PARMOBJ); [|destruct (errorCode =? CONFIG)]]];
    do 2 eexists; (split; [reflexivity|split; reflexivity]).
Qed.

(** C1, the code as it is: for a native status code that is negative or at
    least 14 the native-code form builds an error object whose nested native
    code is the incoming code unchanged, but whose nested native message is
    the misspelt text "error unkown", which is not "error unknown". *)
Theorem scrypt_code_outside_table (scryptErrorCode : Z) :
  scryptErrorCode < 0 \/ 14 <= scryptErrorCode ->
  exists obj : gmap string Value,
    MakeErrorObject_scrypt SCRYPT scryptErrorCode = Returned (VObject obj)
    /\ obj !! "scrypt_err_code" = Some (Integer_New scryptErrorCode)
    /\ obj !! "scrypt_err_message" = Some (VString (String_New "error unkown"))
    /\ ScryptErrorDescr scryptErrorCode <> "error unknown".
Proof.
  intros Hrange.
  destruct (MakeErrorObject_scrypt_nonzero scryptErrorCode)
    as (obj & Hobj & _ & _ & Hcode & Hdescr); [lia|].
  rewrite ScryptErrorDescr_default in Hdescr by lia.
  exists obj. repeat split; try assumption.
  rewrite ScryptErrorDescr_default by lia. discriminate.
Qed.

(** C3: for a native status code from 1 to 13 the native-code form builds an
    error object whose top-level message is "Scrypt error", whose nested
    native code is the incoming code, and whose nested native message is the
    text the spec's table gives for that code. *)
Theorem scrypt_code_in_table (scryptErrorCode : Z) :
  1 <= scryptErrorCode <= 13 ->
  exists (obj : gmap string Value) (text : string),
    MakeErrorObject_scrypt SCRYPT scryptErrorCode = Returned (VObject obj)
    /\ obj !! "err_message" = Some (VString (String_New "Scrypt error"))
    /\ obj !! "scrypt_err_code" = Some (Integer_New scryptErrorCode)
    /\ spec_status_table !! Z.to_nat scryptErrorCode = Some text
    /\ obj !! "scrypt_err_message" = Some (VString (String_New text)).
Proof.
  intros Hrange.
  destruct (MakeErrorObject_scrypt_nonzero scryptErrorCode)
    as (obj & Hobj & _ & Hmessage & Hcode & Hdescr); [lia|].
  exists obj, (ScryptErrorDescr scryptErrorCode).
  repeat split; try assumption.
  apply ScryptErrorDescr_table. lia.
Qed.

(** C4: both overloads answer a zero code with the null value and build no
    error object: the general form for error code 0, whatever the message,
    and the native-code form for scrypt code 0. *)
Theorem zero_code_is_no_error (errorMessage : string) :
  MakeErrorObject 0 errorMessage = (VNull, errorMessage)
  /\ MakeErrorObject_scrypt SCRYPT 0 = Returned VNull.
Proof.
  split; [reflexivity|].
  unfold MakeErrorObject_scrypt. now rewrite assert_holds by apply Z.eqb_refl.
Qed.

(** C5: for every non-zero category that is none of the five defined ones,
    the general form builds an error object whose code is 500 and whose
    message is one fixed text, which starts "Unknown internal error" and does
    not depend on the message passed in. *)
Theorem unknown_category_is_500 (errorCode : Z) (errorMessage : string) :
  errorCode <> 0 ->
  errorCode ∉ [ADDONARG; JSARG; PARMOBJ; CONFIG; SCRYPT] ->
  exists obj : gmap string Value,
    (MakeErrorObject errorCode errorMessage).1 = VObject obj
    /\ obj !! "err_code" = Some (Integer_New 500)
    /\ obj !! "err_message" = Some (VString (String_New unknown_internal_error))
    /\ String.prefix "Unknown internal error" unknown_internal_error = true.
Proof.
  intros Hcode Hcategory.
  assert (Hlabel : spec_category_label errorCode = None).
  { unfold spec_category_label.
    repeat (case Z.eqb_spec; [intros ->; exfalso; apply Hcategory; set_solver|]).
    reflexivity. }
  destruct (MakeErrorObject_cases errorCode errorMessage)
    as [[Hzero _]|(_ & code & text & Hmake & Hshape)]; [contradiction|].
  rewrite Hlabel in Hshape. destruct Hshape as [-> ->].
  rewrite Hmake. eexists. split; [reflexivity|].
  repeat split; simplify_map_eq; reflexivity.
Qed.

(** C10, as amended: the general form reads its category and returns the
    error object, and it writes one thing, the caller's message.  For code
    zero the message is left as it was.  For a non-zero code it is
    overwritten with the text the object reports: the category's label
    followed by the original message (so never the original message again),
    or the fixed text for a category without a label.  So the message is the
    same after the call as before it in two cases only: the code is zero, or
    the category has no label and the message already was the fixed text. *)
Theorem MakeErrorObject_writes_message (errorCode : Z) (errorMessage : string) :
  let after := (MakeErrorObject errorCode errorMessage).2 in
  (errorCode = 0 -> after = errorMessage)
  /\ (errorCode <> 0 ->
      (exists obj : gmap string Value,
          (MakeErrorObject errorCode errorMessage).1 = VObject obj
          /\ obj !! "err_message" = Some (VString (String_New after)))
      /\ match spec_category_label errorCode with
         | Some label => after = label +:+ errorMessage /\ after <> errorMessage
         | None => after = unknown_internal_error
         end)
  /\ (after = errorMessage
      <-> errorCode = 0
          \/ (spec_category_label errorCode = None
              /\ errorMessage = unknown_internal_error)).
Proof.
  cbv zeta.
  assert (Hlonger : forall label : string,
            spec_category_label errorCode = Some label ->
            label +:+ errorMessage <> errorMessage).
  { intros label Hlabel Hsame. apply (f_equal String.length) in Hsame.
    rewrite length_append in Hsame.
    assert (Hpos : (0 < String.length label)%nat); [|lia].
    unfold spec_category_label in Hlabel.
    repeat (destruct (_ =? _) in Hlabel;
            [injection Hlabel as <-; cbn; lia|]).
    discriminate. }
  destruct (MakeErrorObject_cases errorCode errorMessage)
    as [[-> Hmake]|(Hcode & code & text & Hmake & Hshape)]; rewrite Hmake; cbn [fst snd].
  - split; [reflexivity|]. split; [intros Hne; now contradict Hne|].
    split; [now left|reflexivity].
  - split; [intros Hzero; contradiction|].
    destruct (spec_category_label errorCode) as [label|] eqn:Hlabel.
    + destruct Hshape as [_ ->]. specialize (Hlonger label eq_refl).
      split.
      * intros _. split; [|now split].
        eexists. split; [reflexivity|]. simplify_map_eq. reflexivity.
      * split; [intros Hsame; contradiction|].
        intros [Hzero|[Hnone _]]; [contradiction|discriminate].
    + destruct Hshape as [_ ->]. split.
      * intros _. split; [|reflexivity].
        eexists. split; [reflexivity|]. simplify_map_eq. reflexivity.
      * split; [intros <-; right; now split|].
        intros [Hzero|[_ ->]]; [contradiction|reflexivity].
Qed.

End ErrorTranslator.

(** [scrypt_code_outside_table] at code 14, on [binary_host], [debug_build]
    and [sample_header]. *)
Lemma scrypt_code_outside_table_at_14 :
  (14 < 0 \/ 14 <= 14)
  /\ exists obj : gmap string Value,
      MakeErrorObject_scrypt (host := binary_host) (build := debug_build)
        (header := sample_header) 5 14 = Returned (VObject obj)
      /\ obj !! "scrypt_err_code" = Some (Integer_New 14)
      /\ obj !! "scrypt_err_message"
         = Some (VString (String_New (Host := binary_host) "error unkown"))
      /\ ScryptErrorDescr 14 <> "error unknown".
Proof.
  split; [right; lia|].
  apply (scrypt_code_outside_table (host := binary_host) (build := debug_build)
           (header := sample_header) 14).
  right; lia.
Defined.

(** [scrypt_code_in_table] at code 11: the nested message is "password is
    incorrect". *)
Lemma scrypt_code_in_table_at_11 :
  1 <= 11 <= 13
  /\ exists obj : gmap string Value,
      MakeErrorObject_scrypt (host := binary_host) (build := debug_build)
        (header := sample_header) 5 11 = Returned (VObject obj)
      /\ obj !! "err_message"
         = Some (VString (String_New (Host := binary_host) "Scrypt error"))
      /\ obj !! "scrypt_err_code" = Some (Integer_New 11)
      /\ obj !! "scrypt_err_message"
         = Some (VString (String_New (Host := binary_host)
                           "password is incorrect")).
Proof.
  split; [lia|].
  destruct (scrypt_code_in_table (host := binary_host) (build := debug_build)
              (header := sample_header) 11 ltac:(lia))
    as (obj & text & Hobj & Hmessage & Hcode & Htext & Hdescr).
  injection Htext as <-.
  exists obj. repeat split; assumption.
Defined.

(** [unknown_category_is_500] at category 42. *)
Lemma unknown_category_is_500_at_42 :
  42 <> 0
  /\ (42 ∉ [1; 2; 3; 4; 5])
  /\ exists obj : gmap string Value,
      (MakeErrorObject (host := binary_host) (header := sample_header)
         42 "no such category").1 = VObject obj
      /\ obj !! "err_code" = Some (Integer_New 500)
      /\ obj !! "err_message"
         = Some (VString (String_New (Host := binary_host) unknown_internal_error))
      /\ String.prefix "Unknown internal error" unknown_internal_error = true.
Proof.
  assert (Hcategory : 42 ∉ [1; 2; 3; 4; 5]).
  { intros Hin. repeat (apply elem_of_cons in Hin as [Heq|Hin]; [lia|]).
    now apply elem_of_nil in Hin. }
  split; [lia|]. split; [exact Hcategory|].
  apply (unknown_category_is_500 (host := binary_host)
           (header := sample_header) 42 "no such category");
    [lia | exact Hcategory].
Defined.

(** C10, as the spec has it, fails: called with code 1 and the message
    "bad", the general form leaves another text in the caller's message,
    whatever the host and the constants of [common.h] are. *)
Lemma MakeErrorObject_is_not_pure :
  exists (errorCode : Z) (errorMessage : string),
    forall (host : Host) (header : Header),
      (MakeErrorObject errorCode errorMessage).2 <> errorMessage.
Proof.
  exists 1, "bad". intros host header. unfold MakeErrorObject.
  change (negb (1 =? 0)) with true. cbv iota.
  repeat (destruct (1 =? _);
          [cbn [snd]; intros Hsame; vm_compute in Hsame; discriminate Hsame|]).
  cbn [snd]. intros Hsame. vm_compute in Hsame. discriminate Hsame.
Qed.

(** ** The parameter validator *)

Section ParameterValidator.
Context {host : Host} {header : Header}.

(** The validator in terms of the spec's list of checks: the code of the
    first check that fails, or zero and the message untouched. *)
Lemma CheckScryptParameters_first_violation
    (obj : gmap string Value) (errMessage : string) :
  CheckScryptParameters obj errMessage
  = match first_violation obj with
    | Some c => (PARMOBJ, check_message c)
    | None => (0, errMessage)
    end.
Proof.
  unfold CheckScryptParameters, first_violation, spec_checks.
  cbn [List.find check_holds].
  destruct (Has obj "N"), (Has obj "r"), (Has obj "p"),
    (IsNumber (Get obj "N")), (IsNumber (Get obj "r")),
    (IsNumber (Get obj "p")); reflexivity.
Qed.

(** The first violation is a violated check, and every check before it in
    the spec's order holds. *)
Lemma first_violation_is_first (obj : gmap string Value) (c : check) :
  first_violation obj = Some c ->
  exists before after : list check,
    spec_checks = (before ++ c :: after)%list
    /\ check_holds obj c = false
    /\ Forall (fun c' => check_holds obj c' = true) before.
Proof.
  unfold first_violation. generalize spec_checks. intros checks.
  induction checks as [|c' checks IH]; cbn [List.find]; [discriminate|].
  destruct (check_holds obj c') eqn:Hholds; cbn [negb].
  - intros Hfind. destruct (IH Hfind) as (before & after & -> & Hc & Hbefore).
    exists (c' :: before), after. repeat split; [assumption|].
    now constructor.
  - intros [= <-]. exists [], checks. repeat split; [assumption|constructor].
Qed.

(** No violation: all six checks hold. *)
Lemma first_violation_none (obj : gmap string Value) :
  first_violation obj = None <->
  field_ok obj "N" && field_ok obj "r" && field_ok obj "p" = true.
Proof.
  unfold first_violation, spec_checks, field_ok.
  cbn [List.find check_holds].
  destruct (Has obj "N"), (Has obj "r"), (Has obj "p"),
    (IsNumber (Get obj "N")), (IsNumber (Get obj "r")),
    (IsNumber (Get obj "p")); cbn; split; congruence.
Qed.

(** A double that is exactly an integer of [w] bits converts to it. *)
Lemma double_to_unsigned_exact (w : Z) (d : Double) (z : Z) :
  Double_is d z = true -> 0 <= z < 2 ^ w -> double_to_unsigned w d = Some z.
Proof.
  intros Hexact Hrange. destruct d as [| |m e]; try discriminate.
  unfold double_to_unsigned, truncate. cbn [Double_is] in Hexact.
  cbn [mbind option_bind].
  assert (Htrunc : (if 0 <=? e then m * 2 ^ e else m `quot` 2 ^ (- e)) = z).
  { destruct (0 <=? e) eqn:He.
    - now apply Z.eqb_eq in Hexact.
    - apply Z.eqb_eq in Hexact. subst m. apply Z.quot_mul.
      apply Z.leb_gt in He. apply Z.pow_nonzero; lia. }
  rewrite Htrunc.
  destruct (Z.leb_spec 0 z); [|lia]. destruct (Z.ltb_spec z (2 ^ w)); [|lia].
  reflexivity.
Qed.

(** C6: when at least one of N, r, p is missing or not a number, the
    validator returns the parameter-object code, and its message is that of
    the first check, in the spec's order, that the object violates: the
    checks before it hold, and nothing is said of the checks after it. *)
Theorem validate_reports_first_violation
    (obj : gmap string Value) (errMessage : string) :
  field_ok obj "N" && field_ok obj "r" && field_ok obj "p" = false ->
  exists (c : check) (before after : list check),
    CheckScryptParameters obj errMessage = (PARMOBJ, check_message c)
    /\ spec_checks = (before ++ c :: after)%list
    /\ check_holds obj c = false
    /\ Forall (fun c' => check_holds obj c' = true) before.
Proof.
  intros Hbad. rewrite CheckScryptParameters_first_violation.
  destruct (first_violation obj) as [c|] eqn:Hfirst.
  - destruct (first_violation_is_first obj c Hfirst)
      as (before & after & Hsplit & Hc & Hbefore).
    now exists c, before, after.
  - apply first_violation_none in Hfirst. congruence.
Qed.

(** C7, as amended: when N, r and p are all present and numeric the
    validator returns zero and leaves the message alone; and when their
    values are integers that fit the fields (N below 2^64, r and p below
    2^32) the assignment yields exactly these integers. *)
Theorem validate_accepts_and_extracts
    (obj : gmap string Value) (errMessage : string) :
  field_ok obj "N" && field_ok obj "r" && field_ok obj "p" = true ->
  CheckScryptParameters obj errMessage = (0, errMessage)
  /\ forall n r p : Z,
      Double_is (ToNumber (Get obj "N")) n = true -> 0 <= n < 2 ^ 64 ->
      Double_is (ToNumber (Get obj "r")) r = true -> 0 <= r < 2 ^ 32 ->
      Double_is (ToNumber (Get obj "p")) p = true -> 0 <= p < 2 ^ 32 ->
      ScryptParams_assign obj = Some (mkScryptParams n r p).
Proof.
  intros Hok. split.
  - rewrite CheckScryptParameters_first_violation.
    apply first_violation_none in Hok. now rewrite Hok.
  - intros n r p HN Hn Hr Hr' Hp Hp'. unfold ScryptParams_assign.
    rewrite (double_to_unsigned_exact N_bits _ n HN Hn).
    rewrite (double_to_unsigned_exact r_bits _ r Hr Hr').
    rewrite (double_to_unsigned_exact p_bits _ p Hp Hp').
    reflexivity.
Qed.

End ParameterValidator.

(** The validator on [incomplete_params]: r is reported, p is not. *)
Example CheckScryptParameters_incomplete_params :
  CheckScryptParameters (header := sample_header) incomplete_params ""
  = (3, "r value is not present").
Proof. vm_compute. reflexivity. Qed.

(** [validate_reports_first_violation] on [incomplete_params]. *)
Lemma validate_reports_first_violation_r_missing :
  field_ok incomplete_params "N" && field_ok incomplete_params "r"
    && field_ok incomplete_params "p" = false
  /\ exists (c : check) (before after : list check),
      CheckScryptParameters (header := sample_header) incomplete_params ""
      = (3, check_message c)
      /\ spec_checks = (before ++ c :: after)%list
      /\ check_holds incomplete_params c = false
      /\ Forall (fun c' => check_holds incomplete_params c' = true) before.
Proof.
  split; [vm_compute; reflexivity|].
  apply (validate_reports_first_violation (header := sample_header)
           incomplete_params "").
  vm_compute; reflexivity.
Defined.

(** [validate_accepts_and_extracts] on [spec_params]: the spec's example. *)
Lemma validate_accepts_and_extracts_spec_params :
  field_ok spec_params "N" && field_ok spec_params "r"
    && field_ok spec_params "p" = true
  /\ CheckScryptParameters (header := sample_header) spec_params "" = (0, "")
  /\ ScryptParams_assign (host := binary_host) spec_params
     = Some (mkScryptParams 16384 8 1).
Proof.
  assert (Hok : field_ok spec_params "N" && field_ok spec_params "r"
                  && field_ok spec_params "p" = true)
    by (vm_compute; reflexivity).
  destruct (validate_accepts_and_extracts (host := binary_host)
              (header := sample_header) spec_params "" Hok) as [Hcheck Hassign].
  split; [exact Hok|]. split; [exact Hcheck|].
  apply Hassign; first [vm_compute; reflexivity | lia].
Defined.

(** C7, as the spec has it, fails: in [{N: 16384, r: 8.5, p: 1}] all three
    fields are present and numeric, yet the assignment yields r = 8, which
    is not the value 8.5 of the field. *)
Lemma assignment_truncates_fraction :
  field_ok fractional_params "N" && field_ok fractional_params "r"
    && field_ok fractional_params "p" = true
  /\ (forall host : Host,
        ScryptParams_assign fractional_params = Some (mkScryptParams 16384 8 1))
  /\ Get fractional_params "r" = VNumber (Finite 17 (-1))
  /\ Double_is (Finite 17 (-1)) 8 = false.
Proof.
  repeat split; try (vm_compute; reflexivity).
Qed.

(** ** The buffer bridge *)

Section BufferBridge.
Context {host : Host} {build : Build}.

(** [new char[n]] followed by [DecodeWrite] into the new region: the heap
    gains one region, the one the host wrote starting from [n] indeterminate
    bytes. *)
Lemma DecodeWrite_new_char (heap : Heap) (n : Z) (val : Value) (enc : encoding) :
  let written := host_DecodeWrite (replicate (Z.to_nat n) None) n val enc in
  DecodeWrite (new_char heap n).1 (new_char heap n).2 n val enc
  = ((heap ++ [written.1])%list, written.2).
Proof.
  cbv zeta. unfold DecodeWrite, new_char. cbn [fst snd].
  rewrite list_lookup_middle by reflexivity. cbn [default].
  destruct (host_DecodeWrite _ n val enc) as [written k]. cbn [fst snd].
  f_equal. rewrite insert_app_r_alt by reflexivity.
  now rewrite Nat.sub_diag.
Qed.

(** On undefined and on null the call does not return: whatever the
    encoding, [HasInstance(argument->ToObject())] is evaluated, in line 237
    in raw-buffer mode and in line 241 otherwise. *)
Lemma ProduceBuffer_no_object (heap : Heap) (argument : Value)
    (argName errorMessage : string) (enc : encoding) (checkEmpty : bool) :
  argument = VUndefined \/ argument = VNull ->
  ProduceBuffer heap argument argName errorMessage enc checkEmpty = Crashed.
Proof.
  intros [->| ->]; destruct enc; reflexivity.
Qed.

(** On any other argument the three tests are plain tests of the
    argument. *)
Lemma ProduceBuffer_with_object (heap : Heap) (argument : Value)
    (argName errorMessage : string) (enc : encoding) (checkEmpty : bool) :
  argument <> VUndefined -> argument <> VNull ->
  ProduceBuffer heap argument argName errorMessage enc checkEmpty
  = if encoding_eqb enc BUFFER && Buffer_HasInstance argument then
      Returned (mkProduced 0 heap argument errorMessage)
    else if negb (IsString argument) && negb (IsStringObject argument)
            && negb (Buffer_HasInstance argument) then
      Returned (mkProduced 1 heap argument
                  (argName +:+ " must be a buffer or string"))
    else if encoding_eqb enc BUFFER && negb (Buffer_HasInstance argument) then
      Returned (mkProduced 1 heap argument
                  (argName +:+ " must be a buffer as specified by config"))
    else if IsString argument || IsStringObject argument then
      let dataLength := to_size_t (host_DecodeBytes argument enc) in
      let '(heap, data) := new_char heap dataLength in
      let buffer := CreateBuffer data dataLength in
      let '(heap, n) := DecodeWrite heap data dataLength argument enc in
      let dataWritten := to_size_t n in
      assert (dataWritten =? dataLength)
        (if negb (dataWritten =? dataLength) then
           Returned (mkProduced 1 heap argument
             (argName +:+ " is probably encoded differently to what was specified"))
         else
           check_empty argName errorMessage checkEmpty heap buffer)
    else
      check_empty argName errorMessage checkEmpty heap argument.
Proof.
  intros Hundefined Hnull. unfold ProduceBuffer.
  destruct argument; try contradiction; destruct enc; reflexivity.
Qed.

(** A call that returns was made on neither undefined nor null. *)
Lemma ProduceBuffer_returned_object (heap : Heap) (argument : Value)
    (argName errorMessage : string) (enc : encoding) (checkEmpty : bool)
    (res : produced) :
  ProduceBuffer heap argument argName errorMessage enc checkEmpty
  = Returned res ->
  argument <> VUndefined /\ argument <> VNull.
Proof.
  intros Hcall.
  split; intros ->; rewrite ProduceBuffer_no_object in Hcall by tauto;
    discriminate Hcall.
Qed.

(** [ProduceBuffer] on a string, outside raw-buffer mode. *)
Lemma ProduceBuffer_string (heap : Heap) (argument : Value)
    (argName errorMessage : string) (encoding : encoding) (checkEmpty : bool) :
  IsString argument || IsStringObject argument = true ->
  encoding <> BUFFER ->
  let dataLength := to_size_t (host_DecodeBytes argument encoding) in
  let written :=
    host_DecodeWrite (replicate (Z.to_nat dataLength) None) dataLength
      argument encoding in
  ProduceBuffer heap argument argName errorMessage encoding checkEmpty
  = assert (to_size_t written.2 =? dataLength)
      (if negb (to_size_t written.2 =? dataLength) then
         Returned (mkProduced 1 (heap ++ [written.1])%list argument
           (argName +:+ " is probably encoded differently to what was specified"))
       else
         check_empty argName errorMessage checkEmpty
           (heap ++ [written.1])%list
           (CreateBuffer (List.length heap) dataLength)).
Proof.
  intros Hstring Hencoding. cbv zeta.
  rewrite ProduceBuffer_with_object by (intros ->; discriminate Hstring).
  assert (Hraw : encoding_eqb encoding BUFFER = false)
    by (destruct encoding; try reflexivity; contradiction).
  rewrite Hraw. cbn [andb].
  assert (Hneither : negb (IsString argument) && negb (IsStringObject argument)
                     && negb (Buffer_HasInstance argument) = false)
    by (destruct argument; try discriminate; reflexivity).
  rewrite Hneither, Hstring.
  pose proof (DecodeWrite_new_char heap
                (to_size_t (host_DecodeBytes argument encoding))
                argument encoding) as Hwrite.
  cbv zeta in Hwrite.
  destruct (new_char heap _) as [heap' data] eqn:Hnew.
  cbn [fst snd] in Hwrite. rewrite Hwrite.
  injection Hnew as _ <-. reflexivity.
Qed.

(** Outside raw-buffer mode no call returns an empty buffer when
    [checkEmpty] is set: it fails with "cannot be empty". *)
Lemma empty_check_outside_raw_mode (heap : Heap) (argument : Value)
    (argName errorMessage : string) (encoding : encoding) (res : produced) :
  encoding <> BUFFER ->
  ProduceBuffer heap argument argName errorMessage encoding true = Returned res ->
  Buffer_HasInstance (pb_argument res) = true ->
  Buffer_Length (pb_argument res) = 0 ->
  pb_return res = 1 /\ pb_errorMessage res = argName +:+ " cannot be empty".
Proof.
  intros Hencoding Hcall Hbuffer Hlength.
  destruct (IsString argument || IsStringObject argument) eqn:Hstring.
  - rewrite ProduceBuffer_string in Hcall by assumption.
    unfold assert, check_empty in Hcall.
    destruct (NDEBUG || _); [|discriminate].
    destruct (to_size_t _ =? _); cbn [negb andb] in Hcall.
    + destruct (Buffer_Length _ =? 0) eqn:Hempty;
        injection Hcall as <-; [now split|].
      cbn in Hlength, Hempty. lia.
    + injection Hcall as <-. cbn in Hbuffer.
      destruct argument; discriminate.
  - destruct (ProduceBuffer_returned_object _ _ _ _ _ _ _ Hcall)
      as [Hundefined Hnull].
    rewrite ProduceBuffer_with_object in Hcall by assumption.
    unfold check_empty in Hcall.
    assert (Hraw : encoding_eqb encoding BUFFER = false)
      by (destruct encoding; try reflexivity; contradiction).
    rewrite Hraw, Hstring in Hcall. cbn [andb] in Hcall.
    destruct argument; try discriminate; cbn in Hcall;
      try (injection Hcall as <-; discriminate).
    destruct (buf_length b =? 0) eqn:Hempty;
      injection Hcall as <-; [now split|].
    cbn in Hlength. lia.
Qed.

(** C2, the code as it is: in raw-buffer mode a caller's buffer of length
    zero is accepted although [checkEmpty] is set: the call returns 0 and
    leaves the argument, the heap and the error message as they were.  Under
    every other encoding a call with [checkEmpty] set that ends with an empty
    buffer in the argument, the caller's or a new one, fails with
    "<argName> cannot be empty". *)
Theorem raw_mode_accepts_empty_buffer (heap : Heap) (data : addr)
    (offset : Z) (rel : release) (argName errorMessage : string) :
  ProduceBuffer heap (VBuffer (mkBuffer data 0 offset rel)) argName
    errorMessage BUFFER true
  = Returned (mkProduced 0 heap (VBuffer (mkBuffer data 0 offset rel))
                errorMessage)
  /\ forall (argument : Value) (encoding : encoding) (res : produced),
      encoding <> BUFFER ->
      ProduceBuffer heap argument argName errorMessage encoding true
      = Returned res ->
      Buffer_HasInstance (pb_argument res) = true ->
      Buffer_Length (pb_argument res) = 0 ->
      pb_return res = 1
      /\ pb_errorMessage res = argName +:+ " cannot be empty".
Proof.
  split; [reflexivity|].
  intros argument encoding res. apply empty_check_outside_raw_mode.
Qed.

(** C8, the code as it is: undefined and null are neither string-like nor
    a buffer, and on them the call does not fail with a message: it does not
    return at all, the process dies in [HasInstance(argument->ToObject())].
    Every other argument that is neither string-like nor a buffer makes the
    call fail with "<argName> must be a buffer or string"; and in raw-buffer
    mode a string-like argument, which is no buffer, makes it fail with
    "<argName> must be a buffer as specified by config". *)
Theorem produce_rejects_wrong_types (heap : Heap) (argument : Value)
    (argName errorMessage : string) (encoding : encoding) (checkEmpty : bool) :
  (argument = VUndefined \/ argument = VNull ->
   (IsString argument = false /\ IsStringObject argument = false
    /\ Buffer_HasInstance argument = false)
   /\ ProduceBuffer heap argument argName errorMessage encoding checkEmpty
      = Crashed)
  /\ (argument <> VUndefined /\ argument <> VNull
      /\ IsString argument = false /\ IsStringObject argument = false
      /\ Buffer_HasInstance argument = false ->
      ProduceBuffer heap argument argName errorMessage encoding checkEmpty
      = Returned (mkProduced 1 heap argument
                    (argName +:+ " must be a buffer or string")))
  /\ (encoding = BUFFER /\ IsString argument || IsStringObject argument = true
      /\ Buffer_HasInstance argument = false ->
      ProduceBuffer heap argument argName errorMessage encoding checkEmpty
      = Returned (mkProduced 1 heap argument
                    (argName +:+ " must be a buffer as specified by config"))).
Proof.
  split; [|split].
  - intros Hargument. split.
    + destruct Hargument as [->| ->]; repeat split.
    + now apply ProduceBuffer_no_object.
  - intros (Hundefined & Hnull & Hstring & Hobject & Hbuffer).
    rewrite ProduceBuffer_with_object by assumption.
    rewrite Hstring, Hobject, Hbuffer. now rewrite andb_false_r.
  - intros (-> & Hstring & Hbuffer).
    rewrite ProduceBuffer_with_object by (intros ->; discriminate Hstring).
    rewrite Hbuffer. cbn [encoding_eqb andb negb].
    destruct (IsString argument), (IsStringObject argument);
      try discriminate; reflexivity.
Qed.

(** C9, as amended: when a call on a string with a text encoding succeeds,
    the argument has become a buffer over a new region, released by
    [FreeCallback]; its length is the byte length [node::DecodeBytes] gives
    the string in that encoding; its content is what [node::DecodeWrite]
    wrote for the string in that encoding, all of it by the count returned;
    so a decoder gives back the original string from the buffer exactly
    when it does so from what [node::DecodeWrite] wrote. *)
Theorem produce_derives_buffer (heap : Heap) (argument : Value)
    (argName errorMessage : string) (encoding : encoding) (checkEmpty : bool)
    (res : produced) :
  IsString argument || IsStringObject argument = true ->
  encoding <> BUFFER ->
  ProduceBuffer heap argument argName errorMessage encoding checkEmpty
  = Returned res ->
  pb_return res = 0 ->
  let dataLength := to_size_t (host_DecodeBytes argument encoding) in
  let written :=
    host_DecodeWrite (replicate (Z.to_nat dataLength) None) dataLength
      argument encoding in
  pb_argument res = VBuffer (mkBuffer (List.length heap) dataLength 0 ByFreeCallback)
  /\ (0 <= host_DecodeBytes argument encoding < 2 ^ size_t_bits ->
      Buffer_Length (pb_argument res) = host_DecodeBytes argument encoding)
  /\ pb_heap res = (heap ++ [written.1])%list
  /\ pb_heap res !! List.length heap = Some written.1
  /\ to_size_t written.2 = dataLength
  /\ forall decode : region -> jsstring,
      decode (default [] (pb_heap res !! List.length heap)) = units_of argument
      <-> decode written.1 = units_of argument.
Proof.
  intros Hstring Hencoding Hcall Hreturn. cbv zeta.
  rewrite ProduceBuffer_string in Hcall by assumption.
  unfold assert, check_empty in Hcall.
  destruct (NDEBUG || _); [|discriminate].
  destruct (Z.eqb_spec (to_size_t (host_DecodeWrite
              (replicate (Z.to_nat (to_size_t (host_DecodeBytes argument encoding))) None)
              (to_size_t (host_DecodeBytes argument encoding)) argument encoding).2)
              (to_size_t (host_DecodeBytes argument encoding))) as [Hfull|Hshort];
    cbn [negb] in Hcall.
  - assert (Hres : res = mkProduced 0
               (heap ++ [(host_DecodeWrite
                  (replicate (Z.to_nat (to_size_t (host_DecodeBytes argument encoding))) None)
                  (to_size_t (host_DecodeBytes argument encoding)) argument encoding).1])%list
               (CreateBuffer (List.length heap)
                  (to_size_t (host_DecodeBytes argument encoding)))
               errorMessage).
    { destruct (checkEmpty && _); injection Hcall as <-;
        [discriminate Hreturn|reflexivity]. }
    subst res. cbn [pb_argument pb_heap CreateBuffer Buffer_Length buf_length].
    rewrite list_lookup_middle by reflexivity. cbn [default].
    repeat split; try assumption; try tauto.
    intros Hrange. unfold to_size_t. now apply Z.mod_small.
  - injection Hcall as <-. discriminate Hreturn.
Qed.

End BufferBridge.

(** [produce_rejects_wrong_types] on undefined, on the number 7 and, in
    raw-buffer mode, on the string "a". *)
Lemma produce_rejects_wrong_types_samples :
  ProduceBuffer (host := binary_host) (build := debug_build)
    [] VUndefined "password" "" UTF8 true = Crashed
  /\ ProduceBuffer (host := binary_host) (build := debug_build)
       [] (VNumber (Finite 7 0)) "password" "" UTF8 true
     = Returned (mkProduced 1 [] (VNumber (Finite 7 0))
                   "password must be a buffer or string")
  /\ ProduceBuffer (host := binary_host) (build := debug_build)
       [] (VString [97]) "password" "" BUFFER true
     = Returned (mkProduced 1 [] (VString [97])
                   "password must be a buffer as specified by config").
Proof.
  split; [|split].
  - apply (produce_rejects_wrong_types (host := binary_host)
             (build := debug_build) [] VUndefined "password" "" UTF8 true).
    now left.
  - apply (produce_rejects_wrong_types (host := binary_host)
             (build := debug_build) [] (VNumber (Finite 7 0)) "password" ""
             UTF8 true).
    repeat split; discriminate.
  - apply (produce_rejects_wrong_types (host := binary_host)
             (build := debug_build) [] (VString [97]) "password" ""
             BUFFER true).
    repeat split.
Defined.

(** [produce_derives_buffer] on [binary_host] and [debug_build]: the string
    "a" in BINARY encoding becomes a buffer of one byte, 97. *)
Lemma produce_derives_buffer_binary_a :
  exists res : produced,
    ProduceBuffer (host := binary_host) (build := debug_build)
      [] (VString [97]) "password" "" BINARY true = Returned res
    /\ pb_return res = 0
    /\ pb_argument res = VBuffer (mkBuffer 0 1 0 ByFreeCallback)
    /\ pb_heap res !! 0%nat = Some [Some 97]
    /\ binary_decode [Some 97] = [97].
Proof.
  exists (mkProduced 0 [[Some 97]] (VBuffer (mkBuffer 0 1 0 ByFreeCallback)) "").
  assert (Hcall : ProduceBuffer (host := binary_host) (build := debug_build)
                    [] (VString [97]) "password" "" BINARY true
                  = Returned (mkProduced 0 [[Some 97]]
                                (VBuffer (mkBuffer 0 1 0 ByFreeCallback)) ""))
    by (vm_compute; reflexivity).
  destruct (produce_derives_buffer (host := binary_host) (build := debug_build)
              [] (VString [97]) "password" "" BINARY true _
              eq_refl ltac:(discriminate) Hcall eq_refl)
    as (Hargument & _ & _ & Hcontent & _).
  split; [exact Hcall|]. split; [reflexivity|].
  split; [exact Hargument|]. split; [exact Hcontent|]. reflexivity.
Defined.

(** C9, as the spec has it, fails: on a host whose BINARY encoding keeps
    the low byte of each code unit, as node's does, the one-unit string
    U+0100 is turned into a buffer of the right length, one byte, but the
    byte is 0 and reads back as U+0000, not as the original string. *)
Lemma binary_encoding_does_not_round_trip :
  exists res : produced,
    ProduceBuffer (host := binary_host) (build := debug_build)
      [] (VString [256]) "password" "" BINARY true = Returned res
    /\ pb_return res = 0
    /\ Buffer_Length (pb_argument res)
       = host_DecodeBytes (Host := binary_host) (VString [256]) BINARY
    /\ pb_heap res !! 0%nat = Some [Some 0]
    /\ binary_decode [Some 0] <> [256].
Proof.
  exists (mkProduced 0 [[Some 0]] (VBuffer (mkBuffer 0 1 0 ByFreeCallback)) "").
  repeat split; try (vm_compute; reflexivity).
  vm_compute. discriminate.
Qed.

(** ** Further properties of the error translator *)

Section ErrorTranslatorMore.
Context {host : Host} {build : Build} {header : Header}.

(** The fourteen texts of the table and the text of the default branch are
    fifteen different texts. *)
Lemma status_texts_NoDup : NoDup (spec_status_table ++ ["error unkown"])%list.
Proof.
  apply (bool_decide_unpack _). vm_compute. exact I.
Qed.

Lemma ScryptErrorDescr_index (error : Z) :
  (spec_status_table ++ ["error unkown"])%list !! table_index error
  = Some (ScryptErrorDescr error).
Proof.
  unfold table_index.
  destruct (Z.leb_spec 0 error), (Z.leb_spec error 13); cbn [andb].
  - rewrite lookup_app_l by (cbn; lia). apply ScryptErrorDescr_table. lia.
  - rewrite ScryptErrorDescr_default by lia. reflexivity.
  - rewrite ScryptErrorDescr_default by lia. reflexivity.
  - rewrite ScryptErrorDescr_default by lia. reflexivity.
Qed.

Lemma ScryptErrorDescr_same_index (a b : Z) :
  ScryptErrorDescr a = ScryptErrorDescr b -> table_index a = table_index b.
Proof.
  intros Hsame. apply (NoDup_lookup _ _ _ _ status_texts_NoDup
                         (ScryptErrorDescr_index a)).
  rewrite Hsame. apply ScryptErrorDescr_index.
Qed.

(** X1: the description tells the status codes of the table apart: two codes
    have the same description exactly when they are the same code or both
    lie outside 0..13. *)
Theorem ScryptErrorDescr_tells_codes_apart (a b : Z) :
  ScryptErrorDescr a = ScryptErrorDescr b
  <-> a = b \/ ((a < 0 \/ 13 < a) /\ (b < 0 \/ 13 < b)).
Proof.
  split.
  - intros Hsame. apply ScryptErrorDescr_same_index in Hsame.
    unfold table_index in Hsame.
    destruct (Z.leb_spec 0 a), (Z.leb_spec a 13), (Z.leb_spec 0 b),
      (Z.leb_spec b 13); cbn [andb] in Hsame; lia.
  - intros [->|[Ha Hb]]; [reflexivity|].
    now rewrite !ScryptErrorDescr_default.
Qed.

(** X2: what the native-code form returns is null for status zero, and
    otherwise an object with exactly the four properties err_code,
    err_message, scrypt_err_code and scrypt_err_message; err_code is the
    category it was called with, and the nested message is never the text
    "success" of status zero. *)
Theorem native_error_object_shape (errorCode scryptErrorCode : Z) (v : Value) :
  MakeErrorObject_scrypt errorCode scryptErrorCode = Returned v ->
  (scryptErrorCode = 0 /\ v = VNull)
  \/ (scryptErrorCode <> 0 /\
      exists obj : gmap string Value,
        v = VObject obj
        /\ dom obj = ({["err_code"; "err_message"; "scrypt_err_code";
                        "scrypt_err_message"]} : gset string)
        /\ obj !! "err_code" = Some (Integer_New errorCode)
        /\ obj !! "scrypt_err_message"
           = Some (VString (String_New (ScryptErrorDescr scryptErrorCode)))
        /\ ScryptErrorDescr scryptErrorCode <> "success").
Proof.
  unfold MakeErrorObject_scrypt, assert.
  destruct (NDEBUG || (errorCode =? SCRYPT)); [|discriminate].
  destruct (Z.eqb_spec scryptErrorCode 0) as [->|Hcode]; cbn [negb].
  - intros [= <-]. now left.
  - intros [= <-]. right. split; [assumption|]. eexists. split; [reflexivity|].
    split; [|split; [|split]].
    + rewrite !dom_insert_L, dom_empty_L. set_solver.
    + now simplify_map_eq.
    + now simplify_map_eq.
    + intros Hsuccess.
      apply (ScryptErrorDescr_same_index scryptErrorCode 0) in Hsuccess.
      unfold table_index in Hsuccess.
      destruct (Z.leb_spec 0 scryptErrorCode), (Z.leb_spec scryptErrorCode 13);
        cbn in Hsuccess; lia.
Qed.

(** X3: an object built by the general form has exactly the two properties
    err_code and err_message, so never a nested native code or message; it
    is built for a non-zero category only, and its err_code is that
    category when the category has a label and 500 otherwise. *)
Theorem general_error_object_shape (errorCode : Z) (errorMessage : string)
    (obj : gmap string Value) :
  (MakeErrorObject errorCode errorMessage).1 = VObject obj ->
  errorCode <> 0
  /\ dom obj = ({["err_code"; "err_message"]} : gset string)
  /\ obj !! "scrypt_err_code" = None
  /\ obj !! "scrypt_err_message" = None
  /\ obj !! "err_code"
     = Some (Integer_New match spec_category_label errorCode with
                         | Some _ => errorCode
                         | None => 500
                         end).
Proof.
  destruct (MakeErrorObject_cases errorCode errorMessage)
    as [[-> Hmake]|(Hcode & code & text & Hmake & Hshape)]; rewrite Hmake;
    cbn [fst]; [discriminate|].
  intros [= <-]. split; [assumption|]. split; [|split; [|split]].
  - rewrite !dom_insert_L, dom_empty_L. set_solver.
  - now simplify_map_eq.
  - now simplify_map_eq.
  - simplify_map_eq.
    destruct (spec_category_label errorCode); now destruct Hshape as [-> _].
Qed.

(** X4: the native-code form stops in its assertion exactly when the build
    is a debug build and the category is not the scrypt one; a release build
    lets any category through and reports it as err_code. *)
Theorem native_form_assertion (errorCode scryptErrorCode : Z) :
  (MakeErrorObject_scrypt errorCode scryptErrorCode = AssertionFailed
   <-> NDEBUG = false /\ errorCode <> SCRYPT)
  /\ (NDEBUG = true -> scryptErrorCode <> 0 ->
      exists obj : gmap string Value,
        MakeErrorObject_scrypt errorCode scryptErrorCode = Returned (VObject obj)
        /\ obj !! "err_code" = Some (Integer_New errorCode)).
Proof.
  unfold MakeErrorObject_scrypt, assert. split.
  - destruct NDEBUG, (Z.eqb_spec errorCode SCRYPT); cbn [orb];
      destruct (negb (scryptErrorCode =? 0)); split;
      try discriminate; try (intros [? ?]; congruence); try (now split).
  - intros -> Hcode. apply Z.eqb_neq in Hcode. rewrite Hcode. cbn [orb negb].
    eexists. split; [reflexivity|]. now simplify_map_eq.
Qed.

(** X5: the general form has no case for the scrypt category: called with
    it (a non-zero code, different from the four labelled ones) it answers
    as for an unknown category, with code 500 and the fixed text. *)
Theorem general_form_has_no_scrypt_case (errorMessage : string) :
  SCRYPT <> 0 ->
  SCRYPT ∉ [ADDONARG; JSARG; PARMOBJ; CONFIG] ->
  exists obj : gmap string Value,
    MakeErrorObject SCRYPT errorMessage = (VObject obj, unknown_internal_error)
    /\ obj !! "err_code" = Some (Integer_New 500)
    /\ obj !! "err_message" = Some (VString (String_New unknown_internal_error)).
Proof.
  intros Hcode Hcategory.
  assert (Hlabel : spec_category_label SCRYPT = None).
  { unfold spec_category_label.
    repeat (case Z.eqb_spec; [intros Heq; exfalso; apply Hcategory;
                              rewrite Heq at 1; set_solver|]).
    reflexivity. }
  destruct (MakeErrorObject_cases SCRYPT errorMessage)
    as [[Hzero _]|(_ & code & text & Hmake & Hshape)]; [contradiction|].
  rewrite Hlabel in Hshape. destruct Hshape as [-> ->].
  rewrite Hmake. eexists. split; [reflexivity|].
  split; now simplify_map_eq.
Qed.

End ErrorTranslatorMore.

(** ** Further properties of the parameter validator *)

Section ParameterValidatorMore.
Context {host : Host} {header : Header}.

(** The truncation of a double that is exactly an integer is that integer. *)
Lemma truncate_exact (d : Double) (z : Z) :
  Double_is d z = true -> truncate d = Some z.
Proof.
  destruct d as [| |m e]; try discriminate. cbn [Double_is truncate].
  destruct (Z.leb_spec 0 e); intros Hexact; apply Z.eqb_eq in Hexact; f_equal.
  - assumption.
  - subst m. apply Z.quot_mul. apply Z.pow_nonzero; lia.
Qed.

Lemma not_convertible_None (w : Z) (d : Double) :
  not_convertible w d -> double_to_unsigned w d = None.
Proof.
  intros [->|[[negative ->]|(z & Hexact & Hrange)]]; try reflexivity.
  unfold double_to_unsigned. rewrite (truncate_exact d z Hexact).
  cbn [mbind option_bind].
  destruct (Z.leb_spec 0 z), (Z.ltb_spec z (2 ^ w)); try reflexivity; lia.
Qed.

(** X6: provided the parameter-object code is not zero, the validator
    returns zero exactly for the objects whose N, r and p are all present
    and numeric; it then leaves the caller's message alone, and otherwise
    returns the parameter-object code with a message that does not depend
    on what the caller's message was. *)
Theorem validate_zero_iff (obj : gmap string Value) (errMessage : string) :
  PARMOBJ <> 0 ->
  ((CheckScryptParameters obj errMessage).1 = 0
   <-> field_ok obj "N" && field_ok obj "r" && field_ok obj "p" = true)
  /\ ((CheckScryptParameters obj errMessage).1 = 0 ->
      (CheckScryptParameters obj errMessage).2 = errMessage)
  /\ ((CheckScryptParameters obj errMessage).1 <> 0 ->
      (CheckScryptParameters obj errMessage).1 = PARMOBJ
      /\ forall other : string,
          CheckScryptParameters obj other = CheckScryptParameters obj errMessage).
Proof.
  intros Hcode. rewrite <- first_violation_none.
  assert (Hall : forall m, CheckScryptParameters obj m
                 = match first_violation obj with
                   | Some c => (PARMOBJ, check_message c)
                   | None => (0, m)
                   end) by apply CheckScryptParameters_first_violation.
  rewrite (Hall errMessage).
  destruct (first_violation obj) as [c|]; cbn [fst snd].
  - repeat split; congruence.
  - repeat split; congruence.
Qed.

(** X7: validation followed by translation.  With a parameter-object code
    that is not zero and differs from the two codes tested before it, the
    general form applied to what the validator returned gives null and the
    untouched message for a well-formed object, and otherwise the object
    with the parameter-object code whose message is "Scrypt parameter
    object error: " followed by the message of the first violated check. *)
Theorem validate_then_translate (obj : gmap string Value) (errMessage : string) :
  PARMOBJ <> 0 -> PARMOBJ <> ADDONARG -> PARMOBJ <> JSARG ->
  MakeErrorObject (CheckScryptParameters obj errMessage).1
    (CheckScryptParameters obj errMessage).2
  = match first_violation obj with
    | None => (VNull, errMessage)
    | Some c =>
        let text := "Scrypt parameter object error: " +:+ check_message c in
        (VObject (<["err_message" := VString (String_New text)]>
                    (<["err_code" := Integer_New PARMOBJ]> ∅)), text)
    end.
Proof.
  intros Hzero Haddon Hjs. rewrite CheckScryptParameters_first_violation.
  destruct (first_violation obj) as [c|]; cbn [fst snd]; [|reflexivity].
  unfold MakeErrorObject.
  apply Z.eqb_neq in Hzero, Haddon, Hjs. rewrite Hzero, Haddon, Hjs.
  now rewrite Z.eqb_refl.
Qed.

(** X8: the validator and the assignment read the properties N, r and p
    and no other: setting or deleting any other property of the object
    changes neither result. *)
Theorem other_fields_are_ignored (obj : gmap string Value) (k : string)
    (v : Value) (errMessage : string) :
  k <> "N" -> k <> "r" -> k <> "p" ->
  CheckScryptParameters (<[k := v]> obj) errMessage
  = CheckScryptParameters obj errMessage
  /\ ScryptParams_assign (<[k := v]> obj) = ScryptParams_assign obj
  /\ CheckScryptParameters (delete k obj) errMessage
     = CheckScryptParameters obj errMessage
  /\ ScryptParams_assign (delete k obj) = ScryptParams_assign obj.
Proof.
  intros HN Hr Hp.
  unfold CheckScryptParameters, ScryptParams_assign, Has, Get.
  now rewrite !lookup_insert_ne, !lookup_delete_ne by assumption.
Qed.

(** X9: the conversion of a finite double [m * 2^e] to an unsigned integer
    of [w] bits, where it is defined, yields a value of the type that is
    the double's value with the fraction dropped: the value itself when it
    has no fractional bits, and otherwise the integer [t] with
    [t <= |m * 2^e| < t + 1], which is zero for a negative double. *)
Theorem double_to_unsigned_truncates (w m e t : Z) :
  double_to_unsigned w (Finite m e) = Some t ->
  0 <= t < 2 ^ w
  /\ (0 <= e -> t = m * 2 ^ e)
  /\ (e < 0 ->
      t * 2 ^ (- e) <= Z.abs m < (t + 1) * 2 ^ (- e) /\ (m < 0 -> t = 0)).
Proof.
  unfold double_to_unsigned, truncate. cbn [mbind option_bind].
  destruct (Z.leb_spec 0 e) as [He|He].
  - destruct (Z.leb_spec 0 (m * 2 ^ e)), (Z.ltb_spec (m * 2 ^ e) (2 ^ w));
      cbn [andb]; try discriminate.
    intros [= <-]. repeat split; try lia.
  - set (d := 2 ^ (- e)). assert (Hd : 0 < d) by (apply Z.pow_pos_nonneg; lia).
    destruct (Z.leb_spec 0 (m `quot` d)), (Z.ltb_spec (m `quot` d) (2 ^ w));
      cbn [andb]; try discriminate.
    intros [= <-]. split; [lia|]. split; [lia|]. intros _.
    destruct (Z.le_gt_cases 0 m) as [Hm|Hm].
    + rewrite Z.abs_eq by assumption.
      rewrite Z.quot_div_nonneg by assumption.
      pose proof (Z.mul_div_le m d Hd).
      pose proof (Z.mul_succ_div_gt m d Hd).
      split; [lia|]. lia.
    + assert (Hquot : m `quot` d = 0).
      { pose proof (Z.quot_opp_l (- m) d ltac:(lia)) as Hopp.
        rewrite Z.opp_involutive in Hopp.
        pose proof (Z.quot_pos (- m) d ltac:(lia) ltac:(lia)). lia. }
      rewrite Hquot. apply Z.quot_small_iff in Hquot; [|lia].
      split; [lia|]. intros _. reflexivity.
Qed.

(** X11: validation does not make the assignment defined.  An object whose
    N, r and p are all numeric passes the validator even when one of them
    is not-a-number, an infinity or an integer outside its field, and on
    such an object the assignment has no defined result. *)
Theorem validated_yet_not_assignable (obj : gmap string Value)
    (errMessage : string) :
  field_ok obj "N" && field_ok obj "r" && field_ok obj "p" = true ->
  not_convertible 64 (ToNumber (Get obj "N"))
  \/ not_convertible 32 (ToNumber (Get obj "r"))
  \/ not_convertible 32 (ToNumber (Get obj "p")) ->
  CheckScryptParameters obj errMessage = (0, errMessage)
  /\ ScryptParams_assign obj = None.
Proof.
  intros Hok Hbad. split.
  - rewrite CheckScryptParameters_first_violation.
    apply first_violation_none in Hok. now rewrite Hok.
  - unfold ScryptParams_assign, N_bits, r_bits, p_bits.
    destruct Hbad as [Hbad|[Hbad|Hbad]]; apply not_convertible_None in Hbad;
      rewrite Hbad; repeat (destruct (double_to_unsigned _ _)); reflexivity.
Qed.

End ParameterValidatorMore.

(** ** Further properties of the buffer bridge *)

Section BufferBridgeMore.
Context {host : Host} {build : Build}.

Lemma encoding_eqb_BUFFER (enc : encoding) :
  encoding_eqb enc BUFFER = true <-> enc = BUFFER.
Proof. destruct enc; cbn; split; congruence. Qed.

(** [ProduceBuffer] where it does not decode: on an argument that is not
    string-like, or in raw-buffer mode. *)
Lemma ProduceBuffer_not_decoded (heap : Heap) (argument : Value)
    (argName errorMessage : string) (enc : encoding) (checkEmpty : bool) :
  (IsString argument || IsStringObject argument)
    && negb (encoding_eqb enc BUFFER) = false ->
  ProduceBuffer heap argument argName errorMessage enc checkEmpty
  = match ToObject argument with
    | None => Crashed
    | Some _ =>
        if Buffer_HasInstance argument then
          if encoding_eqb enc BUFFER then
            Returned (mkProduced 0 heap argument errorMessage)
          else check_empty argName errorMessage checkEmpty heap argument
        else if IsString argument || IsStringObject argument then
          Returned (mkProduced 1 heap argument
                      (argName +:+ " must be a buffer as specified by config"))
        else
          Returned (mkProduced 1 heap argument
                      (argName +:+ " must be a buffer or string"))
    end.
Proof.
  unfold ProduceBuffer.
  destruct argument, enc; cbn; try discriminate; reflexivity.
Qed.

(** X12: a buffer passed in is borrowed, never copied: whatever the
    encoding, the call allocates nothing and leaves the argument as it was;
    it fails, with "cannot be empty", only for an empty buffer under
    [checkEmpty] and a text encoding, and succeeds in every other case. *)
Theorem buffer_argument_is_borrowed (heap : Heap) (b : Buffer)
    (argName errorMessage : string) (enc : encoding) (checkEmpty : bool) :
  ProduceBuffer heap (VBuffer b) argName errorMessage enc checkEmpty
  = if checkEmpty && (buf_length b =? 0) && negb (encoding_eqb enc BUFFER)
    then Returned (mkProduced 1 heap (VBuffer b)
                     (argName +:+ " cannot be empty"))
    else Returned (mkProduced 0 heap (VBuffer b) errorMessage).
Proof.
  rewrite ProduceBuffer_not_decoded by reflexivity.
  unfold check_empty. cbn [ToObject Buffer_HasInstance Buffer_Length].
  destruct (encoding_eqb enc BUFFER), checkEmpty, (buf_length b =? 0);
    reflexivity.
Qed.

(** X13: what a call that returns leaves behind.  Either it returns 0, and
    then the argument is a buffer, not empty if [checkEmpty] was set under a
    text encoding, and the error message is untouched; or it returns 1, and
    then the error message is the argument's name followed by one of four
    fixed texts. *)
Theorem produce_result_shape (heap : Heap) (argument : Value)
    (argName errorMessage : string) (enc : encoding) (checkEmpty : bool)
    (res : produced) :
  ProduceBuffer heap argument argName errorMessage enc checkEmpty
  = Returned res ->
  (pb_return res = 0
   /\ Buffer_HasInstance (pb_argument res) = true
   /\ pb_errorMessage res = errorMessage
   /\ (checkEmpty = true -> enc <> BUFFER ->
       Buffer_Length (pb_argument res) <> 0))
  \/ (pb_return res = 1
      /\ exists suffix : string,
          suffix ∈ [" must be a buffer or string";
                    " must be a buffer as specified by config";
                    " is probably encoded differently to what was specified";
                    " cannot be empty"]
          /\ pb_errorMessage res = argName +:+ suffix).
Proof.
  assert (Hempty : forall heap' argument',
    Buffer_HasInstance argument' = true ->
    check_empty argName errorMessage checkEmpty heap' argument' = Returned res ->
    (pb_return res = 0
     /\ Buffer_HasInstance (pb_argument res) = true
     /\ pb_errorMessage res = errorMessage
     /\ (checkEmpty = true -> enc <> BUFFER ->
         Buffer_Length (pb_argument res) <> 0))
    \/ (pb_return res = 1
        /\ exists suffix : string,
            suffix ∈ [" must be a buffer or string";
                      " must be a buffer as specified by config";
                      " is probably encoded differently to what was specified";
                      " cannot be empty"]
            /\ pb_errorMessage res = argName +:+ suffix)).
  { intros heap' argument' Hbuffer. unfold check_empty.
    destruct checkEmpty; cbn [andb];
      [destruct (Z.eqb_spec (Buffer_Length argument') 0)|];
      intros [= <-]; cbn [pb_return pb_argument pb_errorMessage].
    - right. split; [reflexivity|]. eexists. split; [|reflexivity]. set_solver.
    - left. repeat split; try assumption. now intros _ _.
    - left. repeat split; try assumption. discriminate. }
  destruct ((IsString argument || IsStringObject argument)
            && negb (encoding_eqb enc BUFFER)) eqn:Hdecode.
  - apply andb_prop in Hdecode as [Hstring Hraw].
    assert (Henc : enc <> BUFFER)
      by (intros ->; discriminate Hraw).
    rewrite ProduceBuffer_string by assumption. unfold assert.
    destruct (NDEBUG || _); [|discriminate].
    destruct (to_size_t _ =? _); cbn [negb].
    + now apply Hempty.
    + intros [= <-]. right. split; [reflexivity|].
      eexists. split; [|reflexivity]. set_solver.
  - rewrite ProduceBuffer_not_decoded by assumption.
    destruct (ToObject argument); [|discriminate].
    destruct (Buffer_HasInstance argument) eqn:Hbuffer.
    + destruct (encoding_eqb enc BUFFER) eqn:Hraw.
      * intros [= <-]. left. repeat split; try assumption.
        intros _ Henc. apply encoding_eqb_BUFFER in Hraw. contradiction.
      * now apply Hempty.
    + destruct (IsString argument || IsStringObject argument);
        intros [= <-]; right; (split; [reflexivity|]);
        eexists; (split; [|reflexivity]); set_solver.
Qed.

(** X14: the call never touches memory that existed before it.  It
    allocates exactly when it decodes (a string-like argument under a text
    encoding that does not stop in the assertion): then the heap is the old
    one followed by the one region [node::DecodeWrite] wrote; in every other
    case the heap is the old one. *)
Theorem produce_keeps_existing_memory (heap : Heap) (argument : Value)
    (argName errorMessage : string) (enc : encoding) (checkEmpty : bool)
    (res : produced) :
  ProduceBuffer heap argument argName errorMessage enc checkEmpty
  = Returned res ->
  (forall (a : addr) (r : region),
      heap !! a = Some r -> pb_heap res !! a = Some r)
  /\ pb_heap res
     = if (IsString argument || IsStringObject argument)
          && negb (encoding_eqb enc BUFFER)
       then
         let dataLength := to_size_t (host_DecodeBytes argument enc) in
         (heap ++ [(host_DecodeWrite (replicate (Z.to_nat dataLength) None)
                      dataLength argument enc).1])%list
       else heap.
Proof.
  intros Hcall.
  assert (Hheap : pb_heap res
     = if (IsString argument || IsStringObject argument)
          && negb (encoding_eqb enc BUFFER)
       then
         let dataLength := to_size_t (host_DecodeBytes argument enc) in
         (heap ++ [(host_DecodeWrite (replicate (Z.to_nat dataLength) None)
                      dataLength argument enc).1])%list
       else heap).
  { destruct ((IsString argument || IsStringObject argument)
              && negb (encoding_eqb enc BUFFER)) eqn:Hdecode.
    - apply andb_prop in Hdecode as [Hstring Hraw].
      assert (Henc : enc <> BUFFER) by (intros ->; discriminate Hraw).
      rewrite ProduceBuffer_string in Hcall by assumption.
      unfold assert, check_empty in Hcall.
      destruct (NDEBUG || _); [|discriminate].
      destruct (to_size_t _ =? _); cbn [negb] in Hcall;
        [destruct (checkEmpty && _)|]; injection Hcall as <-; reflexivity.
    - rewrite ProduceBuffer_not_decoded in Hcall by assumption.
      unfold check_empty in Hcall.
      destruct (ToObject argument); [|discriminate].
      destruct (Buffer_HasInstance argument), (encoding_eqb enc BUFFER),
        (IsString argument || IsStringObject argument);
        try destruct (checkEmpty && _); injection Hcall as <-; reflexivity. }
  split; [|exact Hheap]. intros a r Hlookup. rewrite Hheap.
  destruct (_ && _); [|assumption].
  cbv zeta. apply lookup_app_l_Some. assumption.
Qed.

(** X15: the call stops in its assertion in one situation only: a debug
    build, a string-like argument under a text encoding, and a count
    returned by [node::DecodeWrite] that is not the length
    [node::DecodeBytes] announced.  A release build never stops there. *)
Theorem produce_assertion (heap : Heap) (argument : Value)
    (argName errorMessage : string) (enc : encoding) (checkEmpty : bool) :
  let dataLength := to_size_t (host_DecodeBytes argument enc) in
  let written :=
    host_DecodeWrite (replicate (Z.to_nat dataLength) None) dataLength
      argument enc in
  ProduceBuffer heap argument argName errorMessage enc checkEmpty
  = AssertionFailed
  <-> NDEBUG = false
      /\ IsString argument || IsStringObject argument = true
      /\ enc <> BUFFER
      /\ to_size_t written.2 <> dataLength.
Proof.
  cbv zeta.
  destruct ((IsString argument || IsStringObject argument)
            && negb (encoding_eqb enc BUFFER)) eqn:Hdecode.
  - apply andb_prop in Hdecode as [Hstring Hraw].
    assert (Henc : enc <> BUFFER) by (intros ->; discriminate Hraw).
    rewrite ProduceBuffer_string by assumption. unfold assert, check_empty.
    destruct NDEBUG, (Z.eqb_spec (to_size_t (host_DecodeWrite
               (replicate (Z.to_nat (to_size_t (host_DecodeBytes argument enc))) None)
               (to_size_t (host_DecodeBytes argument enc)) argument enc).2)
               (to_size_t (host_DecodeBytes argument enc)));
      cbn [orb negb]; try destruct (checkEmpty && _);
      split; try discriminate; try tauto; intros (? & ? & ? & ?); congruence.
  - rewrite ProduceBuffer_not_decoded by assumption. unfold check_empty.
    split.
    + destruct (ToObject argument), (Buffer_HasInstance argument),
        (encoding_eqb enc BUFFER),
        (IsString argument || IsStringObject argument);
        try destruct (checkEmpty && _); discriminate.
    + intros (_ & Hstring & Henc & _). rewrite Hstring in Hdecode.
      apply andb_false_iff in Hdecode as [Hfalse|Hraw]; [discriminate|].
      apply negb_false_iff, encoding_eqb_BUFFER in Hraw. contradiction.
Qed.

(** X16: in a release build a count from [node::DecodeWrite] that differs
    from the announced length makes the call fail with "<argName> is
    probably encoded differently to what was specified"; the caller's
    argument is still the string, while the region allocated for it stays
    in the heap. *)
Theorem release_build_reports_short_write (heap : Heap) (argument : Value)
    (argName errorMessage : string) (enc : encoding) (checkEmpty : bool) :
  let dataLength := to_size_t (host_DecodeBytes argument enc) in
  let written :=
    host_DecodeWrite (replicate (Z.to_nat dataLength) None) dataLength
      argument enc in
  NDEBUG = true ->
  IsString argument || IsStringObject argument = true ->
  enc <> BUFFER ->
  to_size_t written.2 <> dataLength ->
  ProduceBuffer heap argument argName errorMessage enc checkEmpty
  = Returned (mkProduced 1 (heap ++ [written.1])%list argument
      (argName +:+ " is probably encoded differently to what was specified")).
Proof.
  cbv zeta. intros Hrelease Hstring Henc Hshort.
  rewrite ProduceBuffer_string by assumption. unfold assert.
  rewrite Hrelease. cbn [orb]. apply Z.eqb_neq in Hshort. now rewrite Hshort.
Qed.

(** X17: an empty string under [checkEmpty].  When the string-like argument
    has byte length zero in the text encoding and [node::DecodeWrite]
    reports zero bytes, the call fails with "<argName> cannot be empty",
    and yet the caller's argument has been replaced: it is now the new
    buffer of length zero, not the string that was passed. *)
Theorem empty_string_is_replaced (heap : Heap) (argument : Value)
    (argName errorMessage : string) (enc : encoding) :
  IsString argument || IsStringObject argument = true ->
  enc <> BUFFER ->
  to_size_t (host_DecodeBytes argument enc) = 0 ->
  to_size_t (host_DecodeWrite [] 0 argument enc).2 = 0 ->
  ProduceBuffer heap argument argName errorMessage enc true
  = Returned (mkProduced 1
      (heap ++ [(host_DecodeWrite [] 0 argument enc).1])%list
      (VBuffer (mkBuffer (List.length heap) 0 0 ByFreeCallback))
      (argName +:+ " cannot be empty")).
Proof.
  intros Hstring Henc Hlength Hwritten.
  rewrite ProduceBuffer_string by assumption. rewrite Hlength.
  change (replicate (Z.to_nat 0) None) with (@nil (option Z)).
  rewrite Hwritten. unfold assert. now rewrite orb_true_r.
Qed.

(** X18: the length a derived buffer reports is the extent of its memory.
    When [size_t] has a width and [node::DecodeWrite] leaves the region the
    size it had, the buffer a successful call on a string hands back starts
    at offset zero of a region that is in the heap and has exactly as many
    bytes as the buffer's length. *)
Theorem derived_buffer_extent (heap : Heap) (argument : Value)
    (argName errorMessage : string) (enc : encoding) (checkEmpty : bool)
    (res : produced) :
  let dataLength := to_size_t (host_DecodeBytes argument enc) in
  let fresh : region := replicate (Z.to_nat dataLength) None in
  IsString argument || IsStringObject argument = true ->
  enc <> BUFFER ->
  0 <= size_t_bits ->
  List.length (host_DecodeWrite fresh dataLength argument enc).1
  = List.length fresh ->
  ProduceBuffer heap argument argName errorMessage enc checkEmpty
  = Returned res ->
  pb_return res = 0 ->
  exists (b : Buffer) (r : region),
    pb_argument res = VBuffer b
    /\ pb_heap res !! buf_data b = Some r
    /\ buf_offset b = 0
    /\ Z.of_nat (List.length r) = buf_length b.
Proof.
  cbv zeta. intros Hstring Henc Hbits Hsize Hcall Hreturn.
  rewrite ProduceBuffer_string in Hcall by assumption.
  unfold assert, check_empty in Hcall.
  destruct (NDEBUG || _); [|discriminate].
  destruct (to_size_t _ =? _); cbn [negb] in Hcall;
    [destruct (checkEmpty && _)|]; injection Hcall as <-;
    try discriminate Hreturn.
  cbn [pb_argument pb_heap CreateBuffer]. do 2 eexists.
  split; [reflexivity|]. cbn [buf_data buf_offset buf_length].
  split; [apply list_lookup_middle; reflexivity|]. split; [reflexivity|].
  rewrite Hsize, length_replicate.
  apply Z2Nat.id. unfold to_size_t. apply Z.mod_pos_bound.
  now apply Z.pow_pos_nonneg.
Qed.

End BufferBridgeMore.

(** ** The further properties on concrete inputs *)

(** [native_error_object_shape] on status 11. *)
Lemma native_error_object_shape_at_11 :
  exists obj : gmap string Value,
    MakeErrorObject_scrypt (host := binary_host) (build := debug_build)
      (header := sample_header) 5 11 = Returned (VObject obj)
    /\ dom obj = ({["err_code"; "err_message"; "scrypt_err_code";
                    "scrypt_err_message"]} : gset string)
    /\ ScryptErrorDescr 11 <> "success".
Proof.
  destruct (native_error_object_shape (host := binary_host)
              (build := debug_build) (header := sample_header) 5 11 _ eq_refl)
    as [[Hzero _]|(_ & obj & Hobj & Hdom & _ & _ & Htext)]; [discriminate Hzero|].
  exists obj. split; [rewrite <- Hobj; reflexivity|]. split; assumption.
Defined.

(** [general_error_object_shape] on the parameter-object category. *)
Lemma general_error_object_shape_at_3 :
  exists obj : gmap string Value,
    (MakeErrorObject (host := binary_host) (header := sample_header)
       3 "N value is not present").1 = VObject obj
    /\ dom obj = ({["err_code"; "err_message"]} : gset string)
    /\ obj !! "scrypt_err_code" = None
    /\ obj !! "err_code" = Some (Integer_New 3).
Proof.
  eexists. split; [reflexivity|].
  destruct (general_error_object_shape (host := binary_host)
              (header := sample_header) 3 "N value is not present" _ eq_refl)
    as (_ & Hdom & Hnested & _ & Hcode).
  split; [exact Hdom|]. split; [exact Hnested|exact Hcode].
Defined.

(** [general_form_has_no_scrypt_case] on [sample_header]. *)
Lemma general_form_has_no_scrypt_case_sample :
  exists obj : gmap string Value,
    MakeErrorObject (host := binary_host) (header := sample_header)
      5 "malloc failed" = (VObject obj, unknown_internal_error)
    /\ obj !! "err_code" = Some (Integer_New 500).
Proof.
  destruct (general_form_has_no_scrypt_case (host := binary_host)
              (header := sample_header) "malloc failed")
    as (obj & Hmake & Hcode & _).
  - cbn. lia.
  - cbn. intros Hin. repeat (apply elem_of_cons in Hin as [Heq|Hin]; [lia|]).
    now apply elem_of_nil in Hin.
  - exists obj. split; assumption.
Defined.

(** [validate_zero_iff] on [spec_params]. *)
Lemma validate_zero_iff_spec_params :
  (CheckScryptParameters (header := sample_header) spec_params "").1 = 0
  <-> field_ok spec_params "N" && field_ok spec_params "r"
        && field_ok spec_params "p" = true.
Proof.
  apply (validate_zero_iff (header := sample_header) spec_params "").
  cbn. lia.
Defined.

(** [validate_then_translate] on [incomplete_params]. *)
Lemma validate_then_translate_incomplete_params :
  (MakeErrorObject (host := binary_host) (header := sample_header)
     (CheckScryptParameters (header := sample_header) incomplete_params "").1
     (CheckScryptParameters (header := sample_header) incomplete_params "").2).2
  = "Scrypt parameter object error: r value is not present".
Proof.
  rewrite (validate_then_translate (host := binary_host)
             (header := sample_header) incomplete_params "");
    [vm_compute; reflexivity | cbn; lia | cbn; lia | cbn; lia].
Defined.

(** [other_fields_are_ignored]: a salt beside N, r and p. *)
Lemma other_fields_are_ignored_salt :
  CheckScryptParameters (header := sample_header)
    (<["salt" := VString [115]]> spec_params) ""
  = CheckScryptParameters (header := sample_header) spec_params ""
  /\ ScryptParams_assign (host := binary_host)
       (<["salt" := VString [115]]> spec_params)
     = ScryptParams_assign (host := binary_host) spec_params.
Proof.
  destruct (other_fields_are_ignored (host := binary_host)
              (header := sample_header) spec_params "salt" (VString [115]) "")
    as (Hcheck & Hassign & _); try discriminate.
  split; assumption.
Defined.

(** [double_to_unsigned_truncates] on 8.5. *)
Lemma double_to_unsigned_truncates_8_5 :
  double_to_unsigned 32 (Finite 17 (-1)) = Some 8
  /\ 8 * 2 ^ (- -1) <= Z.abs 17 < (8 + 1) * 2 ^ (- -1).
Proof.
  split; [reflexivity|].
  apply (double_to_unsigned_truncates 32 17 (-1) 8 eq_refl). lia.
Defined.

(** [validated_yet_not_assignable] on [nan_params]. *)
Lemma validated_yet_not_assignable_nan :
  field_ok nan_params "N" && field_ok nan_params "r"
    && field_ok nan_params "p" = true
  /\ CheckScryptParameters (header := sample_header) nan_params "" = (0, "")
  /\ ScryptParams_assign (host := binary_host) nan_params = None.
Proof.
  assert (Hok : field_ok nan_params "N" && field_ok nan_params "r"
                  && field_ok nan_params "p" = true)
    by (vm_compute; reflexivity).
  split; [exact Hok|].
  apply (validated_yet_not_assignable (host := binary_host)
           (header := sample_header) nan_params "" Hok).
  left. left. vm_compute. reflexivity.
Defined.

(** [produce_result_shape] on the string "a" in BINARY encoding. *)
Lemma produce_result_shape_binary_a :
  exists res : produced,
    ProduceBuffer (host := binary_host) (build := debug_build)
      [] (VString [97]) "password" "" BINARY true = Returned res
    /\ pb_return res = 0
    /\ Buffer_HasInstance (pb_argument res) = true
    /\ Buffer_Length (pb_argument res) <> 0.
Proof.
  eexists. split; [vm_compute; reflexivity|].
  destruct (produce_result_shape (host := binary_host) (build := debug_build)
              [] (VString [97]) "password" "" BINARY true
              (mkProduced 0 [[Some 97]] (VBuffer (mkBuffer 0 1 0 ByFreeCallback)) "")
              ltac:(vm_compute; reflexivity))
    as [(Hreturn & Hbuffer & _ & Hlength)|[Hreturn _]];
    [|discriminate Hreturn].
  split; [exact Hreturn|]. split; [exact Hbuffer|].
  apply Hlength; [reflexivity|discriminate].
Defined.

(** [produce_keeps_existing_memory]: a call on the string "a" with one
    region in the heap before it. *)
Lemma produce_keeps_existing_memory_binary_a :
  exists res : produced,
    ProduceBuffer (host := binary_host) (build := debug_build)
      [[Some 1; Some 2]] (VString [97]) "password" "" BINARY true
    = Returned res
    /\ pb_heap res !! 0%nat = Some [Some 1; Some 2]
    /\ pb_heap res = [[Some 1; Some 2]; [Some 97]].
Proof.
  eexists. split; [vm_compute; reflexivity|].
  destruct (produce_keeps_existing_memory (host := binary_host)
              (build := debug_build)
              [[Some 1; Some 2]] (VString [97]) "password" "" BINARY true
              (mkProduced 0 [[Some 1; Some 2]; [Some 97]]
                 (VBuffer (mkBuffer 1 1 0 ByFreeCallback)) "")
              ltac:(vm_compute; reflexivity))
    as [Hkept Hheap].
  split; [apply Hkept; reflexivity|reflexivity].
Defined.

(** [release_build_reports_short_write] on [short_host]. *)
Lemma release_build_reports_short_write_sample :
  ProduceBuffer (host := short_host) (build := release_build)
    [] (VString [97]) "password" "" BINARY true
  = Returned (mkProduced 1 [[Some 97]] (VString [97])
      "password is probably encoded differently to what was specified").
Proof.
  apply (release_build_reports_short_write (host := short_host)
           (build := release_build) [] (VString [97]) "password" "" BINARY true);
    [reflexivity | reflexivity | discriminate | vm_compute; discriminate].
Defined.

(** [empty_string_is_replaced] on the empty string. *)
Lemma empty_string_is_replaced_sample :
  ProduceBuffer (host := binary_host) (build := debug_build)
    [] (VString []) "salt" "" BINARY true
  = Returned (mkProduced 1 [[]] (VBuffer (mkBuffer 0 0 0 ByFreeCallback))
                "salt cannot be empty").
Proof.
  apply (empty_string_is_replaced (host := binary_host) (build := debug_build)
           [] (VString []) "salt" "" BINARY);
    [reflexivity | discriminate | reflexivity | reflexivity].
Defined.

(** [derived_buffer_extent] on the string "a" in BINARY encoding. *)
Lemma derived_buffer_extent_binary_a :
  exists (b : Buffer) (r : region),
    VBuffer (mkBuffer 0 1 0 ByFreeCallback) = VBuffer b
    /\ [[Some 97]] !! buf_data b = Some r
    /\ buf_offset b = 0
    /\ Z.of_nat (List.length r) = buf_length b.
Proof.
  apply (derived_buffer_extent (host := binary_host) (build := debug_build)
           [] (VString [97]) "password" "" BINARY true
           (mkProduced 0 [[Some 97]] (VBuffer (mkBuffer 0 1 0 ByFreeCallback)) ""));
    [reflexivity | discriminate | cbn; lia | reflexivity
    | vm_compute; reflexivity | reflexivity].
Defined.

(** ** Calling the buffer bridge twice *)

Section BufferBridgeTwice.
Context {host : Host} {build : Build}.

(** X19: a successful call can be repeated on what it left behind.  Called
    again with the same settings on the heap, the argument and the message
    of a call that returned 0, [ProduceBuffer] returns 0 again and changes
    nothing: the argument is a buffer by then, so nothing is decoded and
    nothing allocated. *)
Theorem produce_twice (heap : Heap) (argument : Value)
    (argName errorMessage : string) (enc : encoding) (checkEmpty : bool)
    (res : produced) :
  ProduceBuffer heap argument argName errorMessage enc checkEmpty
  = Returned res ->
  pb_return res = 0 ->
  ProduceBuffer (pb_heap res) (pb_argument res) argName (pb_errorMessage res)
    enc checkEmpty
  = Returned res.
Proof.
  intros Hcall Hreturn.
  assert (Hagain : forall (heap' : Heap) (b : Buffer),
    check_empty argName errorMessage checkEmpty heap' (VBuffer b) = Returned res ->
    enc <> BUFFER ->
    ProduceBuffer (pb_heap res) (pb_argument res) argName (pb_errorMessage res)
      enc checkEmpty = Returned res).
  { intros heap' b Hcheck Henc. unfold check_empty in Hcheck.
    destruct (checkEmpty && (Buffer_Length (VBuffer b) =? 0)) eqn:Hempty;
      injection Hcheck as <-; [discriminate Hreturn|].
    cbn [pb_heap pb_argument pb_errorMessage].
    rewrite ProduceBuffer_not_decoded by reflexivity.
    cbn [ToObject Buffer_HasInstance]. unfold check_empty. rewrite Hempty.
    destruct (encoding_eqb enc BUFFER); reflexivity. }
  destruct ((IsString argument || IsStringObject argument)
            && negb (encoding_eqb enc BUFFER)) eqn:Hdecode.
  - apply andb_prop in Hdecode as [Hstring Hraw].
    assert (Henc : enc <> BUFFER) by (intros ->; discriminate Hraw).
    rewrite ProduceBuffer_string in Hcall by assumption.
    unfold assert in Hcall.
    destruct (NDEBUG || _); [|discriminate].
    destruct (to_size_t _ =? _); cbn [negb] in Hcall.
    + exact (Hagain _ _ Hcall Henc).
    + injection Hcall as <-. discriminate Hreturn.
  - rewrite ProduceBuffer_not_decoded in Hcall by assumption.
    destruct argument as [| | | | | |b|];
      cbn [ToObject Buffer_HasInstance] in Hcall; try discriminate Hcall;
      try (destruct (IsString _ || IsStringObject _);
           injection Hcall as <-; discriminate Hreturn).
    destruct (encoding_eqb enc BUFFER) eqn:Hraw.
    + injection Hcall as <-. cbn [pb_heap pb_argument pb_errorMessage].
      rewrite ProduceBuffer_not_decoded by reflexivity.
      cbn [ToObject Buffer_HasInstance]. now rewrite Hraw.
    + apply (Hagain _ _ Hcall). intros ->. discriminate Hraw.
Qed.

End BufferBridgeTwice.

(** [produce_twice] on the string "a" in BINARY encoding. *)
Lemma produce_twice_binary_a :
  ProduceBuffer (host := binary_host) (build := debug_build)
    [[Some 97]] (VBuffer (mkBuffer 0 1 0 ByFreeCallback)) "password" ""
    BINARY true
  = Returned (mkProduced 0 [[Some 97]]
                (VBuffer (mkBuffer 0 1 0 ByFreeCallback)) "").
Proof.
  apply (produce_twice (host := binary_host) (build := debug_build)
           [] (VString [97]) "password" "" BINARY true
           (mkProduced 0 [[Some 97]] (VBuffer (mkBuffer 0 1 0 ByFreeCallback)) ""));
    [vm_compute; reflexivity | reflexivity].
Defined.
